(** * The FTDC job-orchestration client (ftdc/service.py, ftdc/models.py,
      ftdc/errors.py)

    A shallow embedding of [FTDCService]: resource resolution
    ([get_replica_set]), job submission ([create_ftdc_job]), the status
    polling loop ([check_job_state]) and the streamed download
    ([download_ftdc_data]).

    The Python code talks to an HTTP API and to the file system.  Both are
    made explicit: a [world] holds the scripted server, the file system and
    a chronological trace of the observable events, and every method is a
    function [world -> outcome A * world] that either returns or raises.
    A raise keeps the world as it was at that moment, as in Python. *)

From Stdlib Require Import List String Ascii Bool ZArith Lia.
From Stdlib Require Import Strings.Byte.
From Stdlib Require Import Floats.SpecFloat.
Import ListNotations.
Local Open Scope string_scope.
Local Open Scope Z_scope.
Set Warnings "-register-all".

(** ** Python values

    What [response.json()] hands to the code: JSON decoded into Python
    objects.  A [dict] keeps its insertion order, so it is an association
    list; JSON object keys are always strings. *)

Inductive pyval : Type :=
| PNone
| PBool (b : bool)
| PInt (z : Z)
| PFloat (f : spec_float)
| PStr (s : string)
| PList (l : list pyval)
| PDict (d : list (string * pyval)).

(** [bool(v)]: the truth value Python gives an object in an [if] or an
    [and]. *)
Definition truthy (v : pyval) : bool :=
  match v with
  | PNone => false
  | PBool b => b
  | PInt z => negb (z =? 0)
  | PFloat (S754_zero _) => false
  | PFloat _ => true
  | PStr s => negb (s =? "")%string
  | PList [] => false
  | PList (_ :: _) => true
  | PDict [] => false
  | PDict (_ :: _) => true
  end.

(** [v == s] for a [str] [s]: only a string compares equal to a string. *)
Definition py_eq_str (v : pyval) (s : string) : bool :=
  match v with
  | PStr t => (t =? s)%string
  | _ => false
  end.

(** [d.get(k)] on the association list: [None] when the key is absent. *)
Fixpoint assoc_get (k : string) (d : list (string * pyval)) : option pyval :=
  match d with
  | [] => None
  | (k', v) :: rest => if (k' =? k)%string then Some v else assoc_get k rest
  end.

(** [needle in hay] on two [str]: [needle] occurs as a contiguous run of
    [hay].  The empty string occurs in every string. *)
Fixpoint contains (needle hay : string) : bool :=
  prefix needle hay
  || match hay with
     | EmptyString => false
     | String _ rest => contains needle rest
     end.

(** ** Exceptions (ftdc/errors.py and the built-in ones the code can raise) *)

Inductive exn_class : Type :=
| FTDCError
| ReplicaSetNotFoundError
| JobCreationError
| JobStatusError
| DownloadError
| AuthenticationError
(* built-in and library exceptions, none of which derives from FTDCError *)
| KeyError
| TypeError
| AttributeError
| ValueError
| OverflowError
| OSError
| JSONDecodeError
| RequestException.

(** [issubclass(c, FTDCError)]: the five classes of errors.py derive from
    the base class, nothing else does. *)
Definition is_FTDCError (c : exn_class) : bool :=
  match c with
  | FTDCError | ReplicaSetNotFoundError | JobCreationError
  | JobStatusError | DownloadError | AuthenticationError => true
  | _ => false
  end.

(** An f-string is kept as its parts: the literal text and the interpolated
    values, unrendered ([str] of an arbitrary object is not modelled). *)
Inductive fragment : Type :=
| Lit (s : string)
| FmtInt (z : Z)
| FmtStr (s : string)
| FmtVal (v : pyval).

Definition message := list fragment.

Record exn : Type := Exn { exn_cls : exn_class; exn_msg : message }.

Inductive outcome (A : Type) : Type :=
| Returned (a : A)
| Raised (e : exn).
Arguments Returned {A} a.
Arguments Raised {A} e.

(** The class of the exception an outcome raised, if it raised. *)
Definition raised_class {A} (o : outcome A) : option exn_class :=
  match o with
  | Returned _ => None
  | Raised e => Some (exn_cls e)
  end.

(** Pure code that may raise. *)
Definition obind {A B} (o : outcome A) (k : A -> outcome B) : outcome B :=
  match o with
  | Returned a => k a
  | Raised e => Raised e
  end.

(** [v.get(k, default)]: only a [dict] has the method. *)
Definition py_get (v : pyval) (k : string) (default : pyval) : outcome pyval :=
  match v with
  | PDict d =>
      Returned (match assoc_get k d with Some x => x | None => default end)
  | _ => Raised (Exn AttributeError [])
  end.

(** [v[k]] with a [str] key: [KeyError] on a [dict] without the key,
    [TypeError] on everything that is not a [dict]. *)
Definition py_getitem (v : pyval) (k : string) : outcome pyval :=
  match v with
  | PDict d =>
      match assoc_get k d with
      | Some x => Returned x
      | None => Raised (Exn KeyError [FmtVal (PStr k)])
      end
  | _ => Raised (Exn TypeError [])
  end.

(** [needle in v] for a [str] [needle]: substring test on a [str],
    membership by [==] on a [list], key membership on a [dict];
    [TypeError] on an object that is not a container. *)
Definition py_contains (needle : string) (v : pyval) : outcome bool :=
  match v with
  | PStr s => Returned (contains needle s)
  | PList l => Returned (existsb (fun x => py_eq_str x needle) l)
  | PDict d => Returned (existsb (fun kv => (fst kv =? needle)%string) d)
  | _ => Raised (Exn TypeError [])
  end.

(** [for x in v]: the elements of a [list], the keys of a [dict], the
    characters of a [str]; [TypeError] on anything else. *)
Definition py_iter (v : pyval) : outcome (list pyval) :=
  match v with
  | PList l => Returned l
  | PDict d => Returned (map (fun kv => PStr (fst kv)) d)
  | PStr s => Returned (map (fun c => PStr (String c EmptyString)) (list_ascii_of_string s))
  | _ => Raised (Exn TypeError [])
  end.

(** ** ftdc/models.py *)

Inductive JobState : Type :=
| SUCCESS
| FAILURE
| IN_PROGRESS
| MARKED_FOR_EXPIRY
| EXPIRED.

(** [JobState.X.value] *)
Definition value (s : JobState) : string :=
  match s with
  | SUCCESS => "SUCCESS"
  | FAILURE => "FAILURE"
  | IN_PROGRESS => "IN_PROGRESS"
  | MARKED_FOR_EXPIRY => "MARKED_FOR_EXPIRY"
  | EXPIRED => "EXPIRED"
  end.

(** The dataclass does not check its annotations: a field holds whatever
    the JSON record held. *)
Record Shard : Type := mkShard {
  user_alias : pyval;
  type_name : pyval;
  replica_set_name : pyval
}.

Record JobId : Type := mkJobId { id : pyval }.

Record LogCollectionJob : Type := mkLogCollectionJob {
  resource_type : string;
  resource_name : string;
  redacted : bool;
  size_requested_per_file_bytes : Z;
  log_types : list string
}.

(** [LogCollectionJob.create] *)
Definition create (replica_set : string) (byte_size : Z) : LogCollectionJob :=
  {| resource_type := "REPLICASET";
     resource_name := replica_set;
     redacted := true;
     size_requested_per_file_bytes := byte_size;
     log_types := ["FTDC"] |}.

(** ** The outside world: HTTP and the file system *)

Record HTTPDigestAuth : Type := mkAuth { username : string; password : string }.

Inductive http_method : Type := GET | POST.

Record request : Type := mkRequest {
  req_method : http_method;
  req_url : string;
  req_auth : HTTPDigestAuth;
  req_json : option pyval;
  req_headers : list (string * string);
  req_stream : bool
}.

(** A response as the code reads it: [json_body] is what [response.json()]
    decodes ([None]: the body is not JSON), [body_chunks] what
    [iter_content] yields, [body_broken] whether the stream dies after the
    last of them. *)
Record response : Type := mkResponse {
  status_code : Z;
  text : string;
  json_body : option pyval;
  body_chunks : list (list byte);
  body_broken : bool
}.

(** What the session gets back for one request: a response, or nothing
    (connection refused, timeout), which [requests] raises. *)
Inductive reply : Type :=
| Reply (r : response)
| NoReply.

(** A [pathlib.Path]; the [/] operator is kept symbolic. *)
Inductive Path : Type :=
| PathOf (s : string)
| PathDiv (dir : Path) (name : string).

Fixpoint Path_eqb (p q : Path) : bool :=
  match p, q with
  | PathOf s, PathOf t => (s =? t)%string
  | PathDiv d n, PathDiv e m => Path_eqb d e && (n =? m)%string
  | _, _ => false
  end.

Inductive event : Type :=
| EvRequest (r : request)
| EvPrint (m : message)
| EvSleep (seconds : Z)
| EvOpen (p : Path)
| EvChunk (p : Path) (chunk : list byte).

(** The server answers the k-th request of the session with [server k];
    [served] counts the requests sent so far.  [locked p] says that [p]
    cannot be opened for writing (missing directory, permissions, a name
    the system does not take).  [longest_sleep] is the longest wait, in
    seconds, that the clock of the platform takes at this time. *)
Record world : Type := mkWorld {
  server : nat -> reply;
  served : nat;
  locked : Path -> bool;
  longest_sleep : Z;
  files : Path -> option (list byte);
  trace : list event
}.

Definition log (e : event) (w : world) : world :=
  {| server := server w; served := served w; locked := locked w; longest_sleep := longest_sleep w;
     files := files w; trace := trace w ++ [e] |}.

Definition store (p : Path) (content : list byte) (w : world) : world :=
  {| server := server w; served := served w; locked := locked w; longest_sleep := longest_sleep w;
     files := fun q => if Path_eqb q p then Some content else files w q;
     trace := trace w |}.

(** ** Effectful code: state passing with exceptions *)

Definition M (A : Type) : Type := world -> outcome A * world.

Definition ret {A} (a : A) : M A := fun w => (Returned a, w).

Definition raise {A} (c : exn_class) (msg : message) : M A :=
  fun w => (Raised (Exn c msg), w).

Definition bind {A B} (m : M A) (k : A -> M B) : M B :=
  fun w =>
    match m w with
    | (Returned a, w') => k a w'
    | (Raised e, w') => (Raised e, w')
    end.

Definition lift {A} (o : outcome A) : M A := fun w => (o, w).

Declare Scope py_scope.
Delimit Scope py_scope with py.
Notation "x <- m ;; k" := (bind m (fun x => k))
  (at level 61, m at next level, right associativity) : py_scope.
Notation "m ;; k" := (bind m (fun _ => k))
  (at level 61, right associativity) : py_scope.
Local Open Scope py_scope.

(** [session.get] / [session.post]: one request, one reply. *)
Definition session_send (req : request) : M response :=
  fun w =>
    let w' := {| server := server w; served := S (served w);
                 locked := locked w; longest_sleep := longest_sleep w;
               files := files w;
                 trace := trace w ++ [EvRequest req] |} in
    match server w (served w) with
    | Reply r => (Returned r, w')
    | NoReply => (Raised (Exn RequestException []), w')
    end.

(** [response.json()] *)
Definition response_json (r : response) : M pyval :=
  match json_body r with
  | Some v => ret v
  | None => raise JSONDecodeError []
  end.

Definition print (m : message) : M unit :=
  fun w => (Returned tt, log (EvPrint m) w).

(** What [time.sleep(secs)] objects to, for an [int] number of seconds,
    in the order in which it looks:
    - the length is turned into nanoseconds in 64 bits; beyond 9223372036
      seconds on either side that is an [OverflowError];
    - a negative length is a [ValueError];
    - a wait longer than the clock takes is refused by the system, an
      [OSError].  Every platform takes 4294967 seconds (the milliseconds
      of an unsigned 32-bit word); how much more it takes is its own
      business, [longest_sleep].
    [None] when the wait runs. *)
Definition sleep_error (w : world) (secs : Z) : option exn_class :=
  if (secs <? -9223372036) || (9223372036 <? secs) then Some OverflowError
  else if secs <? 0 then Some ValueError
  else if (4294967 <? secs) && (longest_sleep w <? secs) then Some OSError
  else None.

(** [time.sleep(secs)] *)
Definition time_sleep (secs : Z) : M unit :=
  fun w =>
    match sleep_error w secs with
    | Some c => (Raised (Exn c []), w)
    | None => (Returned tt, log (EvSleep secs) w)
    end.

(** Whether some part of the path holds a NUL byte. *)
Fixpoint has_nul (p : Path) : bool :=
  match p with
  | PathOf s => contains (String Ascii.zero EmptyString) s
  | PathDiv dir name =>
      has_nul dir || contains (String Ascii.zero EmptyString) name
  end.

(** [open(p, "wb")]: creates the file, or truncates it.  A path that
    cannot be opened is an [OSError], but for a name with a NUL byte in
    it, which [open] turns down itself with a [ValueError]. *)
Definition open_wb (p : Path) : M unit :=
  fun w =>
    if locked w p then
      (Raised (Exn (if has_nul p then ValueError else OSError) []), w)
    else (Returned tt, log (EvOpen p) (store p [] w)).

(** [f.write(chunk)] on the file opened at [p]. *)
Definition file_write (p : Path) (chunk : list byte) : M unit :=
  fun w =>
    let old := match files w p with Some c => c | None => [] end in
    (Returned tt, log (EvChunk p chunk) (store p (old ++ chunk) w)).

(** A [while True:] whose body says whether to go round again.  [fuel]
    bounds the number of rounds; [None] means the bound was reached with
    the loop still running. *)
Inductive loop_step (A : Type) : Type :=
| Continue
| Return (a : A).
Arguments Continue {A}.
Arguments Return {A} a.

Fixpoint while_true {A} (fuel : nat) (body : M (loop_step A)) (w : world)
  : option (outcome A * world) :=
  match fuel with
  | O => None
  | S fuel' =>
      match body w with
      | (Returned Continue, w') => while_true fuel' body w'
      | (Returned (Return a), w') => Some (Returned a, w')
      | (Raised e, w') => Some (Raised e, w')
      end
  end.

(** ** ftdc/service.py *)

Definition MONGODB_API_BASE_URL : string :=
  "https://cloud.mongodb.com/api/atlas/v1.0/groups".

(** The service object: the signing credentials.  Its [session] is the
    connection to the [world]. *)
Record FTDCService : Type := mkService { auth : HTTPDigestAuth }.

(** [FTDCService.__init__] *)
Definition init (public_key private_key : string) : FTDCService :=
  {| auth := {| username := public_key; password := private_key |} |}.

(** [self.session.get(url, auth=self.auth)], with [stream=True] or not. *)
Definition session_get (self : FTDCService) (url : string) (stream : bool)
  : M response :=
  session_send {| req_method := GET; req_url := url; req_auth := auth self;
                  req_json := None; req_headers := []; req_stream := stream |}.

(** [self.session.post(url, json=payload, headers=..., auth=self.auth)] *)
Definition session_post (self : FTDCService) (url : string) (payload : pyval)
    (headers : list (string * string)) : M response :=
  session_send {| req_method := POST; req_url := url; req_auth := auth self;
                  req_json := Some payload; req_headers := headers;
                  req_stream := false |}.

(** *** get_replica_set *)

(** One [Shard(...)] of the first comprehension (lines 62-66). *)
Definition shard_of_result (result : pyval) : outcome Shard :=
  obind (py_get result "userAlias" (PStr "")) (fun ua =>
  obind (py_get result "typeName" (PStr "")) (fun tn =>
  obind (py_get result "replicaSetName" PNone) (fun rs =>
  Returned {| user_alias := ua; type_name := tn; replica_set_name := rs |}))).

(** [[f(x) for x in xs]] where [f] may raise: the first exception ends the
    comprehension. *)
Fixpoint comprehension {A B} (f : A -> outcome B) (xs : list A)
  : outcome (list B) :=
  match xs with
  | [] => Returned []
  | x :: rest =>
      obind (f x) (fun y =>
      obind (comprehension f rest) (fun ys => Returned (y :: ys)))
  end.

(** [[x for x in xs if cond(x)]], same. *)
Fixpoint comprehension_if {A} (cond : A -> outcome bool) (xs : list A)
  : outcome (list A) :=
  match xs with
  | [] => Returned []
  | x :: rest =>
      obind (cond x) (fun keep =>
      obind (comprehension_if cond rest) (fun ys =>
      Returned (if keep then x :: ys else ys)))
  end.

(** Lines 60-68: the records of the response as [Shard]s. *)
Definition shards_of_data (data : pyval) : outcome (list Shard) :=
  obind (py_get data "results" (PList [])) (fun results =>
  obind (py_iter results) (fun items =>
  comprehension shard_of_result items)).

(** The filter of lines 74-75:
    [(shard.replica_set_name and replica_set_name in shard.replica_set_name)
     or replica_set_name in shard.user_alias], with Python's short-circuit
    evaluation. *)
Definition shard_filter (replica_set_name0 : string) (shard : Shard)
  : outcome bool :=
  if truthy (replica_set_name shard) then
    obind (py_contains replica_set_name0 (replica_set_name shard)) (fun hit =>
    if hit then Returned true
    else py_contains replica_set_name0 (user_alias shard))
  else py_contains replica_set_name0 (user_alias shard).

(** Lines 70-90: from the shards to the name, or the error. *)
Definition first_match (replica_set_name0 : string) (shards : list Shard)
  : outcome pyval :=
  obind (comprehension_if (shard_filter replica_set_name0) shards)
    (fun matching_shards =>
  match matching_shards with
  | [] =>
      Raised (Exn ReplicaSetNotFoundError
                [Lit "No replica set found that corresponds to ";
                 FmtStr replica_set_name0])
  | first_shard :: _ =>
      if truthy (replica_set_name first_shard)
      then Returned (replica_set_name first_shard)
      else Raised (Exn ReplicaSetNotFoundError
                     [Lit "Replica set name not found in matching shard: ";
                      FmtVal (user_alias first_shard)])
  end).

Definition get_replica_set (self : FTDCService)
    (group_key replica_set_name0 : string) : M pyval :=
  let url := MONGODB_API_BASE_URL ++ "/" ++ group_key ++ "/processes" in
  response <- session_get self url false ;;
  if negb (status_code response =? 200) then
    raise ReplicaSetNotFoundError
      [Lit "Failed to get processes. Status: "; FmtInt (status_code response);
       Lit ", Response: "; FmtStr (text response)]
  else
    data <- response_json response ;;
    shards <- lift (shards_of_data data) ;;
    lift (first_match replica_set_name0 shards).

(** *** create_ftdc_job *)

Definition job_payload (job : LogCollectionJob) : pyval :=
  PDict [("resourceType", PStr (resource_type job));
         ("resourceName", PStr (resource_name job));
         ("redacted", PBool (redacted job));
         ("sizeRequestedPerFileBytes", PInt (size_requested_per_file_bytes job));
         ("logTypes", PList (map PStr (log_types job)))].

Definition create_ftdc_job (self : FTDCService) (group_key replica_set : string)
    (byte_size : Z) : M JobId :=
  let url := MONGODB_API_BASE_URL ++ "/" ++ group_key ++ "/logCollectionJobs" in
  let job := create replica_set byte_size in
  let payload := job_payload job in
  response <- session_post self url payload
                [("Content-Type", "application/json; charset=utf-8")] ;;
  if negb (status_code response =? 201) then
    raise JobCreationError
      [Lit "Failed to create FTDC job. Status: "; FmtInt (status_code response);
       Lit ", Response: "; FmtStr (text response)]
  else
    data <- response_json response ;;
    i <- lift (py_getitem data "id") ;;
    ret {| id := i |}.

(** *** check_job_state *)

(** One round of the [while True:] of lines 153-179. *)
Definition check_job_state_round (self : FTDCService) (url job_id : string)
    (poll_interval : Z) : M (loop_step pyval) :=
  response <- session_get self url false ;;
  if negb (status_code response =? 200) then
    raise JobStatusError
      [Lit "Failed to check job status. Status: ";
       FmtInt (status_code response);
       Lit ", Response: "; FmtStr (text response)]
  else
    data <- response_json response ;;
    status <- lift (py_get data "status" (PStr "")) ;;
    if py_eq_str status (value IN_PROGRESS) then
      print [Lit "Job "; FmtStr job_id; Lit " is still in progress..."] ;;
      time_sleep poll_interval ;;
      ret Continue
    else if py_eq_str status (value SUCCESS)
            || py_eq_str status (value MARKED_FOR_EXPIRY) then
      print [Lit "Job "; FmtStr job_id; Lit " completed successfully!"] ;;
      download_url <- lift (py_get data "downloadUrl" (PStr "")) ;;
      ret (Return download_url)
    else if py_eq_str status (value FAILURE)
            || py_eq_str status (value EXPIRED) then
      raise JobStatusError
        [Lit "Job "; FmtStr job_id; Lit " failed with status: "; FmtVal status]
    else
      raise JobStatusError [Lit "Unknown job status: "; FmtVal status].

Definition check_job_state (fuel : nat) (self : FTDCService)
    (group_key job_id : string) (poll_interval : Z)
  : world -> option (outcome pyval * world) :=
  let url := MONGODB_API_BASE_URL ++ "/" ++ group_key
             ++ "/logCollectionJobs/" ++ job_id in
  while_true fuel (check_job_state_round self url job_id poll_interval).

(** *** download_ftdc_data *)

(** [for chunk in response.iter_content(chunk_size=8192): f.write(chunk)];
    a stream that breaks raises once its chunks are used up. *)
Fixpoint write_chunks (p : Path) (chunks : list (list byte)) (broken : bool)
  : M unit :=
  match chunks with
  | [] => if broken then raise RequestException [] else ret tt
  | chunk :: rest => file_write p chunk ;; write_chunks p rest broken
  end.

Definition download_ftdc_data (self : FTDCService)
    (group_key job_id replica_set : string) (output_dir : Path) : M Path :=
  let url := MONGODB_API_BASE_URL ++ "/" ++ group_key
             ++ "/logCollectionJobs/" ++ job_id ++ "/download" in
  response <- session_get self url true ;;
  if negb (status_code response =? 200) then
    raise DownloadError
      [Lit "Failed to download FTDC data. Status: ";
       FmtInt (status_code response); Lit ", URL: "; FmtStr url]
  else
    let filename := "ftdc_data_" ++ replica_set ++ "_job_" ++ job_id
                    ++ ".tar.gz" in
    let file_path := PathDiv output_dir filename in
    print [Lit "Downloading FTDC data for job "; FmtStr job_id; Lit "..."] ;;
    open_wb file_path ;;
    write_chunks file_path (body_chunks response) (body_broken response) ;;
    print [Lit "Download complete!"] ;;
    ret file_path.

(** ** The vocabulary of the specification *)

(** A resource record as the data model describes it: [alias] and [kind]
    are strings, [groupName] is optional. *)
Record Resource : Type := mkResource {
  alias : string;
  kind : string;
  groupName : option string
}.

(** The [Shard] the code builds for such a record. *)
Definition shard_of_resource (r : Resource) : Shard :=
  {| user_alias := PStr (alias r);
     type_name := PStr (kind r);
     replica_set_name :=
       match groupName r with Some g => PStr g | None => PNone end |}.

(** The matching rule in the specification's words: the [groupName] is
    non-empty and contains the candidate, or the [alias] contains it. *)
Definition matches (candidate : string) (r : Resource) : bool :=
  match groupName r with
  | Some g => negb (g =? "")%string && contains candidate g
  | None => false
  end
  || contains candidate (alias r).

(** The state a status value names, if it is one of the five. *)
Definition state_of (status : pyval) : option JobState :=
  if py_eq_str status (value IN_PROGRESS) then Some IN_PROGRESS
  else if py_eq_str status (value SUCCESS) then Some SUCCESS
  else if py_eq_str status (value MARKED_FOR_EXPIRY) then Some MARKED_FOR_EXPIRY
  else if py_eq_str status (value FAILURE) then Some FAILURE
  else if py_eq_str status (value EXPIRED) then Some EXPIRED
  else None.

(** What a status query lets the poller observe: the [status] field of a
    200 response with a JSON object as body (the empty string when the
    field is absent); nothing otherwise. *)
Definition observed_state (rp : reply) : option pyval :=
  match rp with
  | Reply r =>
      if status_code r =? 200 then
        match json_body r with
        | Some (PDict d) =>
            Some (match assoc_get "status" d with
                  | Some v => v
                  | None => PStr ""
                  end)
        | _ => None
        end
      else None
  | NoReply => None
  end.

(** A query that was answered, but not with status 200. *)
Definition query_failed (rp : reply) : bool :=
  match rp with
  | Reply r => negb (status_code r =? 200)
  | NoReply => false
  end.

(** The waits and the requests among some events. *)
Definition sleeps (evs : list event) : list Z :=
  flat_map (fun e => match e with EvSleep s => [s] | _ => [] end) evs.

Definition requests (evs : list event) : list request :=
  flat_map (fun e => match e with EvRequest r => [r] | _ => [] end) evs.

(** The events that touch the file system. *)
Definition touches_disk (e : event) : bool :=
  match e with
  | EvOpen _ | EvChunk _ _ => true
  | _ => false
  end.

(** The state a status query reports, when it reports one of the five. *)
Definition polled (rp : reply) : option JobState :=
  match observed_state rp with
  | Some status => state_of status
  | None => None
  end.

(** What the outcome of the poller owes to the last reply it consumed:
    JobStatusError exactly when the query failed, or the state is FAILURE
    or EXPIRED, or none of the five; on SUCCESS and MARKED_FOR_EXPIRY
    the downloadUrl. *)
Definition verdict_of (last : reply) (out : outcome pyval) : Prop :=
  (raised_class out = Some JobStatusError
   <-> query_failed last = true
       \/ exists status,
            observed_state last = Some status
            /\ (state_of status = Some FAILURE
                \/ state_of status = Some EXPIRED
                \/ state_of status = None))
  /\ (forall r d,
        last = Reply r ->
        json_body r = Some (PDict d) ->
        polled last = Some SUCCESS \/ polled last = Some MARKED_FOR_EXPIRY ->
        out = Returned (match assoc_get "downloadUrl" d with
                        | Some url => url
                        | None => PStr ""
                        end)).

(** The [downloadUrl] field of a JSON object, as [d.get("downloadUrl", "")]
    reads it. *)
Definition download_url_of (d : list (string * pyval)) : pyval :=
  match assoc_get "downloadUrl" d with
  | Some v => v
  | None => PStr ""
  end.

(** The status query of [check_job_state]. *)
Definition status_request (self : FTDCService) (group_key job_id : string)
  : request :=
  {| req_method := GET;
     req_url := MONGODB_API_BASE_URL ++ "/" ++ group_key
                ++ "/logCollectionJobs/" ++ job_id;
     req_auth := auth self; req_json := None; req_headers := [];
     req_stream := false |}.

(** The events of one round that saw IN_PROGRESS: the query, the progress
    line, the wait. *)
Definition progress_round (self : FTDCService) (group_key job_id : string)
    (poll_interval : Z) : list event :=
  [EvRequest (status_request self group_key job_id);
   EvPrint [Lit "Job "; FmtStr job_id; Lit " is still in progress..."];
   EvSleep poll_interval].

(** The world after [n] such rounds. *)
Definition waited (n : nat) (evs : list event) (w : world) : world :=
  {| server := server w; served := (served w + n)%nat; locked := locked w; longest_sleep := longest_sleep w;
     files := files w;
     trace := trace w ++ List.concat (repeat evs n) |}.

(** The JobRequest as the specification lists it, on the wire. *)
Definition job_request_body (resourceName : string) (requestedBytes : Z)
  : pyval :=
  PDict [("resourceType", PStr "REPLICASET");
         ("resourceName", PStr resourceName);
         ("redacted", PBool true);
         ("sizeRequestedPerFileBytes", PInt requestedBytes);
         ("logTypes", PList [PStr "FTDC"])].

(** The creation call of [create_ftdc_job]. *)
Definition creation_request (self : FTDCService) (group_key : string)
    (resourceName : string) (requestedBytes : Z) : request :=
  {| req_method := POST;
     req_url := MONGODB_API_BASE_URL ++ "/" ++ group_key ++ "/logCollectionJobs";
     req_auth := auth self;
     req_json := Some (job_request_body resourceName requestedBytes);
     req_headers := [("Content-Type", "application/json; charset=utf-8")];
     req_stream := false |}.

(** The streaming GET of [download_ftdc_data]. *)
Definition download_request (self : FTDCService) (group_key job_id : string)
  : request :=
  {| req_method := GET;
     req_url := MONGODB_API_BASE_URL ++ "/" ++ group_key
                ++ "/logCollectionJobs/" ++ job_id ++ "/download";
     req_auth := auth self; req_json := None; req_headers := [];
     req_stream := true |}.

(** The world once one request was sent. *)
Definition sent (req : request) (w : world) : world :=
  {| server := server w; served := S (served w); locked := locked w; longest_sleep := longest_sleep w;
     files := files w; trace := trace w ++ [EvRequest req] |}.

(** ** Concrete runs

    A scripted server, a clean machine, and the records and replies of
    the scenarios the theorems are tried on. *)

Definition scripted (replies : list reply) : nat -> reply :=
  fun k => nth k replies NoReply.

Definition fresh_world (replies : list reply) : world :=
  {| server := scripted replies; served := 0%nat;
     locked := fun _ => false; longest_sleep := 9000000000;
     files := fun _ => None; trace := [] |}.

Definition json_response (code : Z) (body : pyval) : response :=
  {| status_code := code; text := ""; json_body := Some body;
     body_chunks := []; body_broken := false |}.

Definition stream_response (code : Z) (chunks : list (list byte)) : response :=
  {| status_code := code; text := ""; json_body := None;
     body_chunks := chunks; body_broken := false |}.

Definition demo_service : FTDCService := init "public" "private".

(** The JSON record of a resource: [replicaSetName] is left out when the
    record has no groupName. *)
Definition result_of_resource (r : Resource) : pyval :=
  PDict (("userAlias", PStr (alias r))
         :: ("typeName", PStr (kind r))
         :: match groupName r with
            | Some g => [("replicaSetName", PStr g)]
            | None => []
            end).

Definition listing (records : list Resource) : pyval :=
  PDict [("results", PList (map result_of_resource records))].

(** The first record matches "shard-00" inside a longer name; the second
    is named "shard-00" exactly. *)
Definition two_shards : list Resource :=
  [ {| alias := "atlas-shard-00-0"; kind := "REPLICA_PRIMARY";
       groupName := Some "atlas-shard-00" |};
    {| alias := "shard-00"; kind := "REPLICA_SECONDARY";
       groupName := Some "shard-00" |} ].

(** The first record matches by its alias and has no groupName; the
    second matches too and has one. *)
Definition nameless_first : list Resource :=
  [ {| alias := "atlas-shard-00-0"; kind := "REPLICA_PRIMARY";
       groupName := None |};
    {| alias := "atlas-shard-00-1"; kind := "REPLICA_SECONDARY";
       groupName := Some "atlas-shard-00" |} ].

Definition status_reply (status : string) : reply :=
  Reply (json_response 200 (PDict [("id", PStr "job123");
                                   ("status", PStr status)])).

(** ** The rest of the client: the orchestrator and the command line *)

(** The list query of [get_replica_set]. *)
Definition processes_request (self : FTDCService) (group_key : string)
  : request :=
  {| req_method := GET;
     req_url := MONGODB_API_BASE_URL ++ "/" ++ group_key ++ "/processes";
     req_auth := auth self; req_json := None; req_headers := [];
     req_stream := false |}.

(** Lines 108-117 when [replica_set] is not known to be a [str]: the
    orchestrator hands over whatever [get_replica_set] returned, and the
    dataclass passes it on to the payload as it is. *)
Definition payload_of (replica_set : pyval) (byte_size : Z) : pyval :=
  PDict [("resourceType", PStr "REPLICASET");
         ("resourceName", replica_set);
         ("redacted", PBool true);
         ("sizeRequestedPerFileBytes", PInt byte_size);
         ("logTypes", PList [PStr "FTDC"])].

(** [create_ftdc_job] on such an argument (lines 108-133). *)
Definition create_ftdc_job_of (self : FTDCService) (group_key : string)
    (replica_set : pyval) (byte_size : Z) : M JobId :=
  let url := MONGODB_API_BASE_URL ++ "/" ++ group_key ++ "/logCollectionJobs" in
  let payload := payload_of replica_set byte_size in
  response <- session_post self url payload
                [("Content-Type", "application/json; charset=utf-8")] ;;
  if negb (status_code response =? 201) then
    raise JobCreationError
      [Lit "Failed to create FTDC job. Status: "; FmtInt (status_code response);
       Lit ", Response: "; FmtStr (text response)]
  else
    data <- response_json response ;;
    i <- lift (py_getitem data "id") ;;
    ret {| id := i |}.

(** Code that may also fail to come to an end: [None] when the fuel of a
    loop inside it ran out. *)
Definition run (A : Type) : Type := world -> option (outcome A * world).

Definition finite {A} (m : M A) : run A := fun w => Some (m w).

Definition rbind {A B} (m : run A) (k : A -> run B) : run B :=
  fun w =>
    match m w with
    | None => None
    | Some (Returned a, w') => k a w'
    | Some (Raised e, w') => Some (Raised e, w')
    end.

Notation "x <~ m ;; k" := (rbind m (fun x => k))
  (at level 61, m at next level, right associativity) : py_scope.

(** [FTDCService.get_ftdc_data] (lines 220-258).

    [job.id] and [replica_set] come out of JSON.  [check_job_state] and
    [download_ftdc_data] use them inside f-strings only, so they receive
    them as text, through [py_str]: Python's [str], a parameter here, of
    which the theorems assume no more than that it leaves a string as it
    is.  [cwd] is what [Path.cwd()] answers; the poll interval is the
    default of [check_job_state], 3. *)
Definition get_ftdc_data (py_str : pyval -> string) (cwd : Path) (fuel : nat)
    (self : FTDCService) (group_key replica_set_name0 : string)
    (byte_size : Z) (output_dir : option Path) : run Path :=
  let output_dir := match output_dir with Some d => d | None => cwd end in
  _ <~ finite (print [Lit "Looking for replica set: ";
                      FmtStr replica_set_name0]) ;;
  replica_set <~ finite (get_replica_set self group_key replica_set_name0) ;;
  _ <~ finite (print [Lit "Found replica set: "; FmtVal replica_set]) ;;
  _ <~ finite (print [Lit "Creating FTDC collection job..."]) ;;
  job <~ finite (create_ftdc_job_of self group_key replica_set byte_size) ;;
  _ <~ finite (print [Lit "Job created with ID: "; FmtVal (id job)]) ;;
  _ <~ finite (print [Lit "Checking job status..."]) ;;
  _ <~ check_job_state fuel self group_key (py_str (id job)) 3 ;;
  file_path <~ finite (download_ftdc_data self group_key (py_str (id job))
                         (py_str replica_set) output_dir) ;;
  finite (ret file_path).

(** *** ftdc/cli.py *)

(** What [click.echo] is given by the [download] command: literal text, a
    path or an exception, the last two unrendered. *)
Inductive echo_part : Type :=
| EText (s : string)
| EPath (p : Path)
| EExn (e : exn).

(** How the command ends: the exit status of the process, and its one
    [click.echo], to the error stream or not. *)
Record exit : Type := mkExit {
  exit_status : Z;
  to_stderr : bool;
  echoed : list echo_part
}.

(** The [download] command (lines 60-106), from the parsed options on.
    Falling off the end of the command is exit status 0; [sys.exit(1)] in
    a handler is exit status 1. *)
Definition download (py_str : pyval -> string) (cwd : Path) (fuel : nat)
    (group_key replica_set_name0 public private : string) (size : Z)
    (output_dir : option Path) : world -> option (exit * world) :=
  fun w =>
    let service := init public private in
    match get_ftdc_data py_str cwd fuel service group_key replica_set_name0
            size output_dir w with
    | None => None
    | Some (Returned file_path, w') =>
        Some ({| exit_status := 0; to_stderr := false;
                 echoed := [EText (String (ascii_of_nat 10)
                                     (String (ascii_of_nat 19)
                                        " Downloaded to: "));
                            EPath file_path] |}, w')
    | Some (Raised e, w') =>
        if is_FTDCError (exn_cls e) then
          Some ({| exit_status := 1; to_stderr := true;
                   echoed := [EText "Error: "; EExn e] |}, w')
        else
          Some ({| exit_status := 1; to_stderr := true;
                   echoed := [EText "Unexpected error: "; EExn e] |}, w')
    end.

(** The name of the artifact (line 208). *)
Definition artifact_name (replica_set job_id : string) : string :=
  "ftdc_data_" ++ replica_set ++ "_job_" ++ job_id ++ ".tar.gz".

(** A stand-in for [str] in concrete runs: right on strings, which is all
    those runs hand to it. *)
Definition str_of_text (v : pyval) : string :=
  match v with
  | PStr s => s
  | _ => ""
  end.

(** A server that reports IN_PROGRESS to every query. *)
Definition busy_world : world :=
  {| server := fun _ => status_reply "IN_PROGRESS"; served := 0%nat;
     locked := fun _ => false; longest_sleep := 9000000000;
     files := fun _ => None; trace := [] |}.


(** A stream that breaks after its chunks. *)
Definition broken_response (chunks : list (list byte)) : response :=
  {| status_code := 200; text := ""; json_body := None;
     body_chunks := chunks; body_broken := true |}.

(** The replies of a whole run that goes well: the listing, the job, one
    IN_PROGRESS, SUCCESS, the artifact. *)
Definition good_run : list reply :=
  [ Reply (json_response 200 (listing two_shards));
    Reply (json_response 201 (PDict [("id", PStr "job123")]));
    status_reply "IN_PROGRESS";
    status_reply "SUCCESS";
    Reply (stream_response 200 [[x1f; x8b]; [x08]]) ].

(** A listing whose second record has a null userAlias and nothing
    else; the first is the first of [two_shards]. *)
Definition poisoned_listing : pyval :=
  PDict [("results",
          PList [result_of_resource
                   {| alias := "atlas-shard-00-0"; kind := "REPLICA_PRIMARY";
                      groupName := Some "atlas-shard-00" |};
                 PDict [("userAlias", PNone)]])].

(** Runs that stop half way: the creation refused, the 201 without an
    id, the job that expires. *)
Definition refused_run : list reply :=
  [ Reply (json_response 200 (listing two_shards));
    Reply (json_response 403 PNone) ].

Definition no_id_run : list reply :=
  [ Reply (json_response 200 (listing two_shards));
    Reply (json_response 201 (PDict [])) ].

Definition expired_run : list reply :=
  [ Reply (json_response 200 (listing two_shards));
    Reply (json_response 201 (PDict [("id", PStr "job123")]));
    status_reply "IN_PROGRESS";
    status_reply "EXPIRED" ].

(** ** Strings *)

Lemma prefix_iff (n h : string) :
  prefix n h = true <-> exists post, h = (n ++ post)%string.
Proof.
  revert h; induction n as [|a n IH]; intros [|b h]; simpl.
  - split; [intros _; now exists "" | reflexivity].
  - split; [intros _; now exists (String b h) | reflexivity].
  - split; [discriminate | intros [post H]; discriminate].
  - destruct (Ascii.ascii_dec a b) as [->|Hab].
    + rewrite IH. split; intros [post H]; exists post; congruence.
    + split; [discriminate | intros [post H]; congruence].
Qed.

(** [contains] is the substring relation. *)
Lemma contains_iff (n h : string) :
  contains n h = true <-> exists pre post, h = (pre ++ n ++ post)%string.
Proof.
  split.
  - induction h as [|a h IH]; cbn [contains]; rewrite orb_true_iff;
      intros [H|H]; try discriminate.
    + apply prefix_iff in H. destruct H as [post H]. now exists "", post.
    + apply prefix_iff in H. destruct H as [post H]. now exists "", post.
    + destruct (IH H) as (pre & post & ->). now exists (String a pre), post.
  - intros (pre & post & ->). induction pre as [|a pre IH].
    + assert (prefix n (n ++ post) = true) as H
        by (apply prefix_iff; now exists post).
      simpl append. destruct (n ++ post)%string; cbn [contains]; now rewrite H.
    + simpl append. cbn [contains]. rewrite IH. apply orb_true_r.
Qed.

(** ** The resolver *)

Section Resolver.

Variable candidate : string.

(** On a well-typed record the filter of the code is the matching rule
    of the specification, and it does not raise. *)
Lemma shard_filter_matches (r : Resource) :
  shard_filter candidate (shard_of_resource r)
  = Returned (matches candidate r).
Proof.
  unfold shard_filter, matches, shard_of_resource; cbn.
  destruct (groupName r) as [g|]; cbn; [|reflexivity].
  destruct (g =? "")%string; cbn; [reflexivity|].
  now destruct (contains candidate g).
Qed.

Lemma comprehension_if_matches (rs : list Resource) :
  comprehension_if (shard_filter candidate) (map shard_of_resource rs)
  = Returned (map shard_of_resource (filter (matches candidate) rs)).
Proof.
  induction rs as [|r rs IH]; cbn [map comprehension_if filter];
    [reflexivity|].
  rewrite shard_filter_matches, IH; cbn.
  now destruct (matches candidate r).
Qed.

(** The head of the filtered list is what [find] finds. *)
Lemma filter_head (rs : list Resource) :
  find (matches candidate) rs
  = match filter (matches candidate) rs with
    | [] => None
    | r :: _ => Some r
    end.
Proof.
  induction rs as [|r rs IH]; cbn; [reflexivity|].
  now destruct (matches candidate r).
Qed.

(** Lines 70-90 on well-typed records, case by case. *)
Lemma first_match_resources (rs : list Resource) :
  first_match candidate (map shard_of_resource rs)
  = match find (matches candidate) rs with
    | None =>
        Raised (Exn ReplicaSetNotFoundError
                  [Lit "No replica set found that corresponds to ";
                   FmtStr candidate])
    | Some first =>
        if truthy (replica_set_name (shard_of_resource first))
        then Returned (replica_set_name (shard_of_resource first))
        else Raised (Exn ReplicaSetNotFoundError
                       [Lit "Replica set name not found in matching shard: ";
                        FmtVal (PStr (alias first))])
    end.
Proof.
  unfold first_match.
  rewrite comprehension_if_matches, filter_head; cbn.
  now destruct (filter (matches candidate) rs).
Qed.

(** The request of [get_replica_set], and what it leaves to lines 70-90
    once the list query went through. *)
Lemma get_replica_set_200 self group_key w r data shards :
  server w (served w) = Reply r ->
  status_code r = 200 ->
  json_body r = Some data ->
  shards_of_data data = Returned shards ->
  fst (get_replica_set self group_key candidate w)
  = first_match candidate shards.
Proof.
  intros Hr Hs Hj Hd.
  unfold get_replica_set, bind, session_get, session_send, response_json,
    lift, ret.
  rewrite Hr, Hs, Hj; cbn. rewrite Hd; cbn.
  now destruct (first_match candidate shards).
Qed.

End Resolver.

(** C1. When some record matches the candidate name, and the first one
    that does (in the order of the list) has a non-empty groupName,
    [get_replica_set] returns that groupName, whatever records follow. *)
Theorem get_replica_set_first_match :
  forall self group_key candidate w r data (records : list Resource) first g,
    server w (served w) = Reply r ->
    status_code r = 200 ->
    json_body r = Some data ->
    shards_of_data data = Returned (map shard_of_resource records) ->
    find (matches candidate) records = Some first ->
    groupName first = Some g ->
    g <> ""%string ->
    fst (get_replica_set self group_key candidate w) = Returned (PStr g).
Proof.
  intros self group_key candidate w r data records first g Hr Hs Hj Hd Hf Hg Hne.
  rewrite (get_replica_set_200 candidate self group_key w r data _ Hr Hs Hj Hd).
  rewrite first_match_resources, Hf.
  unfold shard_of_resource; cbn. rewrite Hg; cbn.
  apply String.eqb_neq in Hne. now rewrite Hne.
Qed.

(** C2. When the first record that matches has no groupName (absent or
    empty), [get_replica_set] raises ReplicaSetNotFoundError, whatever
    records follow it, matching or not. *)
Theorem get_replica_set_no_fallback :
  forall self group_key candidate w r data (records : list Resource) first,
    server w (served w) = Reply r ->
    status_code r = 200 ->
    json_body r = Some data ->
    shards_of_data data = Returned (map shard_of_resource records) ->
    find (matches candidate) records = Some first ->
    groupName first = None \/ groupName first = Some ""%string ->
    fst (get_replica_set self group_key candidate w)
    = Raised (Exn ReplicaSetNotFoundError
                [Lit "Replica set name not found in matching shard: ";
                 FmtVal (PStr (alias first))]).
Proof.
  intros self group_key candidate w r data records first Hr Hs Hj Hd Hf Hg.
  rewrite (get_replica_set_200 candidate self group_key w r data _ Hr Hs Hj Hd).
  rewrite first_match_resources, Hf.
  unfold shard_of_resource; cbn.
  now destruct Hg as [-> | ->].
Qed.


(** ** The poller *)

Lemma state_of_in_progress status :
  state_of status = Some IN_PROGRESS
  <-> py_eq_str status (value IN_PROGRESS) = true.
Proof.
  unfold state_of.
  destruct (py_eq_str status (value IN_PROGRESS)); [tauto|].
  repeat match goal with
         | |- context [if ?b then _ else _] => destruct b
         end; split; discriminate.
Qed.

Lemma sleeps_app (a b : list event) : sleeps (a ++ b) = (sleeps a ++ sleeps b)%list.
Proof. apply flat_map_app. Qed.

Lemma requests_app (a b : list event) :
  requests (a ++ b) = (requests a ++ requests b)%list.
Proof. apply flat_map_app. Qed.

(** Closes the cases of a round in which no status is read at all. *)
Ltac no_state :=
  solve [ eexists _, []; cbn; repeat split; try discriminate;
          try (now left);
          try (intros [?|(? & ? & ?)]; discriminate);
          try (intros ? ? _ _ [?|?]; discriminate) ].

Section Poller.

Variables (self : FTDCService) (group_key job_id : string) (poll_interval : Z).

Local Abbreviation round :=
  (check_job_state_round self
     (MONGODB_API_BASE_URL ++ "/" ++ group_key ++ "/logCollectionJobs/" ++ job_id)
     job_id poll_interval).

Local Abbreviation rounds :=
  (progress_round self group_key job_id poll_interval).

(** A round that sees IN_PROGRESS waits, when the wait can run, and asks
    for another round. *)
Lemma round_in_progress w :
  polled (server w (served w)) = Some IN_PROGRESS ->
  sleep_error w poll_interval = None ->
  round w = (Returned Continue, waited 1 rounds w).
Proof.
  unfold polled, observed_state; intros H Hp.
  destruct (server w (served w)) as [r|] eqn:Hr; [|discriminate].
  destruct (status_code r =? 200) eqn:Hs; [|discriminate].
  destruct (json_body r) as [[| | | | | |d]|] eqn:Hj; try discriminate.
  apply state_of_in_progress in H.
  unfold check_job_state_round, bind, session_get, session_send,
    response_json, lift, ret, print, log.
  rewrite Hr, Hs, Hj; cbn -[time_sleep] in H |- *. rewrite H.
  unfold time_sleep.
  change (sleep_error _ poll_interval) with (sleep_error w poll_interval).
  rewrite Hp.
  unfold waited, progress_round, status_request, log; cbn.
  rewrite <- !app_assoc, Nat.add_1_r. reflexivity.
Qed.

Lemma waited_S n w : waited n rounds (waited 1 rounds w) = waited (S n) rounds w.
Proof.
  unfold waited; cbn. rewrite <- app_assoc; cbn.
  f_equal. lia.
Qed.

(** [n] rounds that see IN_PROGRESS use up [n] units of fuel and leave the
    world [waited n]. *)
Lemma while_in_progress n : forall fuel w,
  (forall k, (k < n)%nat ->
             polled (server w (served w + k)%nat) = Some IN_PROGRESS) ->
  ((0 < n)%nat -> sleep_error w poll_interval = None) ->
  check_job_state (n + fuel) self group_key job_id poll_interval w
  = check_job_state fuel self group_key job_id poll_interval
      (waited n rounds w).
Proof.
  unfold check_job_state.
  induction n as [|n IH]; intros fuel w H Hp.
  - cbn. f_equal. unfold waited; cbn. rewrite app_nil_r, Nat.add_0_r.
    now destruct w.
  - cbn [Nat.add while_true].
    rewrite round_in_progress;
      [| rewrite <- (Nat.add_0_r (served w)); apply H; lia | apply Hp; lia].
    rewrite IH; [now rewrite waited_S | | intros _; apply Hp; lia].
    intros k Hk. cbn. rewrite Nat.add_1_r. cbn.
    rewrite <- Nat.add_succ_r. apply H. lia.
Qed.

(** A round that sees IN_PROGRESS and whose wait is turned down ends the
    loop with the exception of [time.sleep]: one query, one line, no
    wait. *)
Lemma check_job_state_refused fuel w c :
  polled (server w (served w)) = Some IN_PROGRESS ->
  sleep_error w poll_interval = Some c ->
  exists w',
    check_job_state (S fuel) self group_key job_id poll_interval w
    = Some (Raised (Exn c []), w')
    /\ served w' = S (served w)
    /\ sleeps (trace w') = sleeps (trace w).
Proof.
  unfold polled, observed_state; intros H Hp.
  destruct (server w (served w)) as [r|] eqn:Hr; [|discriminate].
  destruct (status_code r =? 200) eqn:Hs; [|discriminate].
  destruct (json_body r) as [[| | | | | |d]|] eqn:Hj; try discriminate.
  apply state_of_in_progress in H.
  unfold check_job_state. cbn [while_true].
  unfold check_job_state_round, bind, session_get, session_send,
    response_json, lift, ret, print, log.
  rewrite Hr, Hs, Hj; cbn -[time_sleep] in H |- *. rewrite H.
  unfold time_sleep.
  match goal with
  | |- context [sleep_error ?w1 poll_interval] =>
      change (sleep_error w1 poll_interval) with (sleep_error w poll_interval)
  end.
  rewrite Hp.
  eexists. split; [reflexivity|]. split; [reflexivity|].
  cbn [trace]. rewrite !sleeps_app. cbn. now rewrite !app_nil_r.
Qed.

(** The round that sees anything else ends the loop: one more query, no
    wait, and an outcome read off the reply. *)
Lemma check_job_state_last fuel w :
  polled (server w (served w)) <> Some IN_PROGRESS ->
  exists out tail,
    check_job_state (S fuel) self group_key job_id poll_interval w
    = Some (out,
            {| server := server w; served := S (served w);
               locked := locked w; longest_sleep := longest_sleep w;
               files := files w;
               trace := trace w
                        ++ EvRequest (status_request self group_key job_id)
                           :: tail |})
    /\ sleeps tail = [] /\ requests tail = []
    /\ (raised_class out = Some JobStatusError
        <-> query_failed (server w (served w)) = true
            \/ exists status,
                 observed_state (server w (served w)) = Some status
                 /\ (state_of status = Some FAILURE
                     \/ state_of status = Some EXPIRED
                     \/ state_of status = None))
    /\ (forall r d,
          server w (served w) = Reply r ->
          json_body r = Some (PDict d) ->
          polled (server w (served w)) = Some SUCCESS
          \/ polled (server w (served w)) = Some MARKED_FOR_EXPIRY ->
          out = Returned (download_url_of d)).
Proof.
  intros H.
  unfold check_job_state. cbn [while_true].
  unfold check_job_state_round, bind, session_get, session_send,
    response_json, lift, ret, print, raise, log, status_request.
  unfold polled, observed_state, query_failed in *.
  destruct (server w (served w)) as [r|] eqn:Hr; [|no_state].
  destruct (status_code r =? 200) eqn:Hs; [|no_state].
  destruct (json_body r) as [data|] eqn:Hj; [|no_state].
  destruct data as [| | | | | |d]; try no_state.
  cbn -[append]. unfold download_url_of, state_of, value in *.
  set (status := match assoc_get "status" d with
                 | Some v => v
                 | None => PStr ""
                 end) in *.
  destruct (py_eq_str status "IN_PROGRESS") eqn:E1; [congruence|].
  destruct (py_eq_str status "SUCCESS") eqn:E2;
    [|destruct (py_eq_str status "MARKED_FOR_EXPIRY") eqn:E3];
    cbn.
  1,2: rewrite <- app_assoc; cbn; do 2 eexists; (split; [reflexivity|]);
       cbn; repeat split; try discriminate;
       [intros [?|(st & Hst & Hc)]; [discriminate|];
        injection Hst as <-; rewrite ?E1, ?E2, ?E3 in Hc;
        destruct Hc as [?|[?|?]]; discriminate
       | intros r0 d0 Hr0 Hd0 _; injection Hr0 as <-; rewrite Hj in Hd0;
         injection Hd0 as <-; reflexivity].
  destruct (py_eq_str status "FAILURE") eqn:E4;
    [|destruct (py_eq_str status "EXPIRED") eqn:E5];
    cbn; eexists _, []; cbn; repeat split; try discriminate;
    try (intros _; right; exists status; split; [reflexivity|];
         rewrite ?E1, ?E2, ?E3, ?E4, ?E5; tauto);
    intros r0 d0 _ _ [?|?]; discriminate.
Qed.

End Poller.

Lemma sleeps_rounds self group_key job_id poll_interval n :
  sleeps (List.concat (repeat (progress_round self group_key job_id poll_interval) n))
  = repeat poll_interval n.
Proof.
  induction n as [|n IH]; [reflexivity|].
  cbn [repeat List.concat]. rewrite sleeps_app, IH. reflexivity.
Qed.

Lemma requests_rounds self group_key job_id poll_interval n :
  requests (List.concat (repeat (progress_round self group_key job_id poll_interval) n))
  = repeat (status_request self group_key job_id) n.
Proof.
  induction n as [|n IH]; [reflexivity|].
  cbn [repeat List.concat]. rewrite requests_app, IH. reflexivity.
Qed.

(** Polling comes to an end as soon as a reply is not an IN_PROGRESS
    observation: [n] rounds of waiting, then the last round. *)
Lemma check_job_state_run self group_key job_id poll_interval w n fuel :
  (forall k, (k < n)%nat ->
             polled (server w (served w + k)%nat) = Some IN_PROGRESS) ->
  polled (server w (served w + n)%nat) <> Some IN_PROGRESS ->
  ((0 < n)%nat -> sleep_error w poll_interval = None) ->
  (n < fuel)%nat ->
  exists out tail,
    check_job_state fuel self group_key job_id poll_interval w
    = Some (out,
            {| server := server w; served := S (served w + n);
               locked := locked w; longest_sleep := longest_sleep w;
               files := files w;
               trace := trace w
                        ++ List.concat
                             (repeat (progress_round self group_key job_id
                                        poll_interval) n)
                        ++ EvRequest (status_request self group_key job_id)
                           :: tail |})
    /\ sleeps tail = [] /\ requests tail = []
    /\ (raised_class out = Some JobStatusError
        <-> query_failed (server w (served w + n)%nat) = true
            \/ exists status,
                 observed_state (server w (served w + n)%nat) = Some status
                 /\ (state_of status = Some FAILURE
                     \/ state_of status = Some EXPIRED
                     \/ state_of status = None))
    /\ (forall r d,
          server w (served w + n)%nat = Reply r ->
          json_body r = Some (PDict d) ->
          polled (server w (served w + n)%nat) = Some SUCCESS
          \/ polled (server w (served w + n)%nat) = Some MARKED_FOR_EXPIRY ->
          out = Returned (download_url_of d)).
Proof.
  intros Hn Hlast Hp Hfuel.
  replace fuel with (n + S (fuel - S n))%nat by lia.
  rewrite while_in_progress by assumption.
  destruct (check_job_state_last self group_key job_id poll_interval
              (fuel - S n)
              (waited n (progress_round self group_key job_id poll_interval) w)
              Hlast)
    as (out & tail & Hrun & Hrest).
  exists out, tail. split; [|exact Hrest].
  rewrite Hrun. cbn. now rewrite <- app_assoc.
Qed.

(** What [time.sleep] raises is none of the errors of errors.py. *)
Lemma sleep_error_class w secs c :
  sleep_error w secs = Some c ->
  c = OverflowError \/ c = ValueError \/ c = OSError.
Proof.
  unfold sleep_error.
  repeat match goal with
         | |- context [if ?b then _ else _] => destruct b
         end; intros [= <-]; tauto.
Qed.

(** An IN_PROGRESS observation is neither a failed query nor a state that
    ends the polling. *)
Lemma verdict_of_in_progress rp c :
  polled rp = Some IN_PROGRESS ->
  c = OverflowError \/ c = ValueError \/ c = OSError ->
  verdict_of rp (Raised (Exn c [])).
Proof.
  intros Hpol Hc. split.
  - split.
    + cbn. intros [= ->]. destruct Hc as [?|[?|?]]; discriminate.
    + intros [Hq|(status & Hst & Hs)].
      * unfold polled, observed_state, query_failed in *.
        destruct rp as [r|]; [|discriminate].
        destruct (status_code r =? 200); cbn in *; discriminate.
      * unfold polled in Hpol. rewrite Hst in Hpol. rewrite Hpol in Hs.
        destruct Hs as [?|[?|?]]; discriminate.
  - intros r d _ _ [H|H]; rewrite Hpol in H; discriminate.
Qed.

(** Polling comes to an end, whatever the interval: when some reply is
    not an IN_PROGRESS observation, the poller stops at the first such
    reply, or before it at an IN_PROGRESS one if the wait is turned
    down, and its outcome is the verdict of that last reply. *)
Lemma check_job_state_ends self group_key job_id poll_interval n :
  forall fuel w,
    polled (server w (served w + n)%nat) <> Some IN_PROGRESS ->
    (n < fuel)%nat ->
    exists out w' m,
      check_job_state fuel self group_key job_id poll_interval w
      = Some (out, w')
      /\ (m <= n)%nat
      /\ served w' = S (served w + m)
      /\ (forall k, (k < m)%nat ->
                    polled (server w (served w + k)%nat) = Some IN_PROGRESS)
      /\ verdict_of (server w (served w + m)%nat) out.
Proof.
  assert (forall fuel w,
            polled (server w (served w)) <> Some IN_PROGRESS ->
            exists out w',
              check_job_state (S fuel) self group_key job_id poll_interval w
              = Some (out, w')
              /\ served w' = S (served w + 0)
              /\ verdict_of (server w (served w + 0)%nat) out) as Hstop.
  { intros fuel w Hpol.
    destruct (check_job_state_last self group_key job_id poll_interval fuel w
                Hpol) as (out & tail & Hrun & _ & _ & Hiff & Hok).
    exists out. eexists. split; [exact Hrun|].
    rewrite Nat.add_0_r. split; [reflexivity|]. split; [exact Hiff|exact Hok]. }
  induction n as [|n IH]; intros fuel w Hn Hfuel;
    (destruct fuel as [|fuel]; [lia|]).
  - rewrite Nat.add_0_r in Hn.
    destruct (Hstop fuel w Hn) as (out & w' & Hrun & Hserved & Hv).
    exists out, w', 0%nat.
    split; [exact Hrun|]. split; [lia|]. split; [exact Hserved|].
    split; [intros k Hk; lia | exact Hv].
  - destruct (polled (server w (served w))) as [[]|] eqn:Hpol;
      try (destruct (Hstop fuel w) as (out & w' & Hrun & Hserved & Hv);
           [rewrite Hpol; discriminate|];
           exists out, w', 0%nat;
           split; [exact Hrun|]; split; [lia|]; split; [exact Hserved|];
           split; [intros k Hk; lia | exact Hv]).
    destruct (sleep_error w poll_interval) as [c|] eqn:Hsl.
    + destruct (check_job_state_refused self group_key job_id poll_interval
                  fuel w c Hpol Hsl) as (w' & Hrun & Hserved & _).
      exists (Raised (Exn c [])), w', 0%nat.
      rewrite Nat.add_0_r.
      split; [exact Hrun|]. split; [lia|]. split; [exact Hserved|].
      split; [intros k Hk; lia|].
      exact (verdict_of_in_progress _ c Hpol (sleep_error_class _ _ _ Hsl)).
    + destruct (IH fuel
                  (waited 1 (progress_round self group_key job_id
                               poll_interval) w))
        as (out & w' & m & Hrun & Hm & Hserved & Hbefore & Hv).
      { cbn [waited server served].
        now replace (served w + 1 + n)%nat with (served w + S n)%nat by lia. }
      { lia. }
      exists out, w', (S m).
      cbn [waited server served] in Hserved, Hbefore, Hv.
      replace (served w + 1 + m)%nat with (served w + S m)%nat
        in Hserved, Hv by lia.
      split.
      { unfold check_job_state in *. cbn [while_true].
        now rewrite (round_in_progress self group_key job_id poll_interval w
                       Hpol Hsl). }
      split; [lia|]. split; [exact Hserved|]. split; [|exact Hv].
      intros [|k] Hk; [now rewrite Nat.add_0_r|].
      replace (served w + S k)%nat with (served w + 1 + k)%nat by lia.
      apply Hbefore. lia.
Qed.


(** C4, as amended. A job that reports IN_PROGRESS [n] times and then a
    terminal state is polled with exactly [n] waits, each of the
    configured interval, and exactly [n + 1] status queries, the first of
    them the very first thing the poller does; a FAILURE or EXPIRED
    observation raises JobStatusError with no query after it.  When
    [n] is not 0 the interval has to be one that [time.sleep] takes. *)
Theorem check_job_state_counts :
  forall self group_key job_id poll_interval w (n fuel : nat) terminal,
    (forall k, (k < n)%nat ->
               polled (server w (served w + k)%nat) = Some IN_PROGRESS) ->
    polled (server w (served w + n)%nat) = Some terminal ->
    terminal <> IN_PROGRESS ->
    ((0 < n)%nat -> sleep_error w poll_interval = None) ->
    (n < fuel)%nat ->
    exists out w' evs,
      check_job_state fuel self group_key job_id poll_interval w
      = Some (out, w')
      /\ trace w' = (trace w ++ evs)%list
      /\ sleeps evs = repeat poll_interval n
      /\ requests evs = repeat (status_request self group_key job_id) (S n)
      /\ hd_error evs = Some (EvRequest (status_request self group_key job_id))
      /\ served w' = (served w + n + 1)%nat
      /\ (terminal = FAILURE \/ terminal = EXPIRED ->
          raised_class out = Some JobStatusError).
Proof.
  intros self group_key job_id poll_interval w n fuel terminal
    Hn Hlast Hterm Hp Hfuel.
  assert (polled (server w (served w + n)%nat) <> Some IN_PROGRESS) as Hlast'
    by (rewrite Hlast; congruence).
  destruct (check_job_state_run self group_key job_id poll_interval w n fuel
              Hn Hlast' Hp Hfuel)
    as (out & tail & Hrun & Hs & Hq & Hiff & _).
  eexists out, _, _. split; [exact Hrun|]. cbn [trace served].
  split; [reflexivity|].
  rewrite sleeps_app, requests_app, sleeps_rounds, requests_rounds.
  change (sleeps (EvRequest (status_request self group_key job_id) :: tail))
    with (sleeps tail).
  change (requests (EvRequest (status_request self group_key job_id) :: tail))
    with (status_request self group_key job_id :: requests tail).
  rewrite Hs, Hq, app_nil_r.
  repeat split.
  - cbn [repeat]. now rewrite repeat_cons.
  - now destruct n.
  - lia.
  - intros Hfail. apply Hiff. right.
    unfold polled in Hlast.
    destruct (observed_state (server w (served w + n)%nat)) as [status|];
      [|discriminate].
    exists status. split; [reflexivity|].
    destruct Hfail as [-> | ->]; tauto.
Qed.

(** Replies that report IN_PROGRESS for ever, with waits that run, keep
    the poller going for ever: no amount of fuel yields an outcome. *)
Lemma check_job_state_unbounded self group_key job_id poll_interval w :
  (forall k, polled (server w (served w + k)%nat) = Some IN_PROGRESS) ->
  sleep_error w poll_interval = None ->
  forall fuel,
    check_job_state fuel self group_key job_id poll_interval w = None.
Proof.
  intros H Hp fuel.
  rewrite <- (Nat.add_0_r fuel).
  now rewrite while_in_progress by auto.
Qed.

(** ** The submitter *)

(** Up to the status check, [create_ftdc_job] sends its one request. *)
Lemma create_ftdc_job_sends self group_key replica_set byte_size w :
  exists out,
    create_ftdc_job self group_key replica_set byte_size w
    = (out, sent (creation_request self group_key replica_set byte_size) w).
Proof.
  unfold create_ftdc_job, bind, session_post, session_send, response_json,
    lift, ret, raise.
  destruct (server w (served w)) as [r|]; [|now eexists].
  destruct (negb (status_code r =? 201)); [now eexists|].
  destruct (json_body r) as [data|]; [|now eexists].
  destruct (py_getitem data "id"); now eexists.
Qed.

(** C5. A creation response whose status is not 201 makes
    [create_ftdc_job] raise JobCreationError: nothing is returned, and the
    one creation request is all that was sent. *)
Theorem create_ftdc_job_not_created :
  forall self group_key replica_set byte_size w r,
    server w (served w) = Reply r ->
    status_code r <> 201 ->
    create_ftdc_job self group_key replica_set byte_size w
    = (Raised (Exn JobCreationError
                 [Lit "Failed to create FTDC job. Status: ";
                  FmtInt (status_code r);
                  Lit ", Response: "; FmtStr (text r)]),
       sent (creation_request self group_key replica_set byte_size) w).
Proof.
  intros self group_key replica_set byte_size w r Hr Hs.
  apply Z.eqb_neq in Hs.
  unfold create_ftdc_job, bind, session_post, session_send, raise.
  now rewrite Hr, Hs.
Qed.

(** C8. The job built for a resolved name and a requested size has
    resource type "REPLICASET", redacted true, log types ["FTDC"], the
    name and the size as given; and that is the body [create_ftdc_job]
    submits, whatever the server answers. *)
Theorem create_ftdc_job_request :
  forall self group_key replica_set byte_size w,
    create replica_set byte_size
    = {| resource_type := "REPLICASET";
         resource_name := replica_set;
         redacted := true;
         size_requested_per_file_bytes := byte_size;
         log_types := ["FTDC"] |}
    /\ trace (snd (create_ftdc_job self group_key replica_set byte_size w))
       = (trace w
          ++ [EvRequest
                {| req_method := POST;
                   req_url := MONGODB_API_BASE_URL ++ "/" ++ group_key
                              ++ "/logCollectionJobs";
                   req_auth := auth self;
                   req_json :=
                     Some (PDict
                             [("resourceType", PStr "REPLICASET");
                              ("resourceName", PStr replica_set);
                              ("redacted", PBool true);
                              ("sizeRequestedPerFileBytes", PInt byte_size);
                              ("logTypes", PList [PStr "FTDC"])]);
                   req_headers :=
                     [("Content-Type", "application/json; charset=utf-8")];
                   req_stream := false |}])%list.
Proof.
  intros self group_key replica_set byte_size w.
  split; [reflexivity|].
  destruct (create_ftdc_job_sends self group_key replica_set byte_size w)
    as [out ->].
  reflexivity.
Qed.

(** C9. A 201 response whose JSON object has no "id" key makes
    [create_ftdc_job] raise KeyError, which is not an FTDCError and so
    not the JobCreationError of the contract. *)
Theorem create_ftdc_job_missing_id :
  forall self group_key replica_set byte_size w r d,
    server w (served w) = Reply r ->
    status_code r = 201 ->
    json_body r = Some (PDict d) ->
    assoc_get "id" d = None ->
    fst (create_ftdc_job self group_key replica_set byte_size w)
    = Raised (Exn KeyError [FmtVal (PStr "id")])
    /\ is_FTDCError KeyError = false
    /\ raised_class
         (fst (create_ftdc_job self group_key replica_set byte_size w))
       <> Some JobCreationError.
Proof.
  intros self group_key replica_set byte_size w r d Hr Hs Hj Hd.
  assert (fst (create_ftdc_job self group_key replica_set byte_size w)
          = Raised (Exn KeyError [FmtVal (PStr "id")])) as H.
  { unfold create_ftdc_job, bind, session_post, session_send, response_json,
      lift, ret, py_getitem.
    now rewrite Hr, Hs, Hj, Hd. }
  rewrite H. repeat split. discriminate.
Qed.

(** ** The resolver, when the list query fails *)

(** C10. A list response whose status is not 200 makes [get_replica_set]
    raise ReplicaSetNotFoundError, the class it also raises when the list
    came back and no record matched. *)
Theorem get_replica_set_list_failure :
  forall self group_key candidate w r,
    server w (served w) = Reply r ->
    status_code r <> 200 ->
    fst (get_replica_set self group_key candidate w)
    = Raised (Exn ReplicaSetNotFoundError
                [Lit "Failed to get processes. Status: ";
                 FmtInt (status_code r);
                 Lit ", Response: "; FmtStr (text r)])
    /\ forall w2 r2 data2 (records : list Resource),
         server w2 (served w2) = Reply r2 ->
         status_code r2 = 200 ->
         json_body r2 = Some data2 ->
         shards_of_data data2 = Returned (map shard_of_resource records) ->
         find (matches candidate) records = None ->
         raised_class (fst (get_replica_set self group_key candidate w2))
         = raised_class (fst (get_replica_set self group_key candidate w)).
Proof.
  intros self group_key candidate w r Hr Hs.
  apply Z.eqb_neq in Hs.
  assert (fst (get_replica_set self group_key candidate w)
          = Raised (Exn ReplicaSetNotFoundError
                      [Lit "Failed to get processes. Status: ";
                       FmtInt (status_code r);
                       Lit ", Response: "; FmtStr (text r)])) as H.
  { unfold get_replica_set, bind, session_get, session_send, raise.
    now rewrite Hr, Hs. }
  split; [exact H|].
  intros w2 r2 data2 records Hr2 Hs2 Hj2 Hd2 Hnone.
  rewrite H, (get_replica_set_200 candidate self group_key w2 r2 data2 _
                Hr2 Hs2 Hj2 Hd2).
  now rewrite first_match_resources, Hnone.
Qed.

(** ** The downloader *)

Lemma Path_eqb_refl (p : Path) : Path_eqb p p = true.
Proof.
  induction p as [s|dir IH name]; cbn.
  - apply String.eqb_refl.
  - now rewrite IH, String.eqb_refl.
Qed.

(** Writing the chunks appends them, in order, to the file at [p]; when
    the loop raises it has still written them all. *)
Lemma write_chunks_appends p broken chunks : forall w content,
  files w p = Some content ->
  exists w',
    write_chunks p chunks broken w
    = (if broken then Raised (Exn RequestException []) else Returned tt, w')
    /\ files w' p = Some (content ++ List.concat chunks)%list.
Proof.
  induction chunks as [|chunk rest IH]; intros w content Hc.
  - exists w. cbn [write_chunks List.concat]. rewrite app_nil_r.
    split; [now destruct broken | exact Hc].
  - cbn [write_chunks List.concat].
    unfold bind, file_write. rewrite Hc.
    destruct (IH (log (EvChunk p chunk) (store p (content ++ chunk) w))
                 (content ++ chunk)%list) as (w' & Hrun & Hfile).
    { cbn. now rewrite Path_eqb_refl. }
    exists w'. rewrite Hrun. split.
    + now destruct broken.
    + now rewrite Hfile, <- app_assoc.
Qed.

(** C6. A download response whose status is not 200 makes
    [download_ftdc_data] raise DownloadError with the disk untouched: the
    files are what they were, and the request is the only thing that
    happened, no file was opened and no chunk written. *)
Theorem download_ftdc_data_refused :
  forall self group_key job_id replica_set output_dir w r,
    server w (served w) = Reply r ->
    status_code r <> 200 ->
    exists msg w' evs,
      download_ftdc_data self group_key job_id replica_set output_dir w
      = (Raised (Exn DownloadError msg), w')
      /\ files w' = files w
      /\ trace w' = (trace w ++ evs)%list
      /\ evs = [EvRequest (download_request self group_key job_id)]
      /\ existsb touches_disk evs = false.
Proof.
  intros self group_key job_id replica_set output_dir w r Hr Hs.
  apply Z.eqb_neq in Hs.
  unfold download_ftdc_data, bind, session_get, session_send, raise.
  rewrite Hr, Hs. cbn.
  do 3 eexists. repeat split.
Qed.

(** A 200 response, a path that can be opened and a stream that holds
    make the download return. *)
Lemma download_ftdc_data_succeeds self group_key job_id replica_set output_dir
    w r :
  server w (served w) = Reply r ->
  status_code r = 200 ->
  locked w (PathDiv output_dir
              ("ftdc_data_" ++ replica_set ++ "_job_" ++ job_id ++ ".tar.gz"))
  = false ->
  body_broken r = false ->
  fst (download_ftdc_data self group_key job_id replica_set output_dir w)
  = Returned (PathDiv output_dir
                ("ftdc_data_" ++ replica_set ++ "_job_" ++ job_id ++ ".tar.gz")).
Proof.
  intros Hr Hs Hl Hb. apply Z.eqb_eq in Hs.
  unfold download_ftdc_data, bind, session_get, session_send, raise, print,
    open_wb, ret.
  rewrite Hr, Hs. cbn [negb locked log]. rewrite Hl.
  match goal with
  | |- context [write_chunks ?path ?cs ?b ?w1] =>
      destruct (write_chunks_appends path b cs w1 [])
        as (w' & Hrun & _)
  end.
  { cbn [files log store]. now rewrite Path_eqb_refl. }
  now rewrite Hrun, Hb.
Qed.

(** C7. Whenever [download_ftdc_data] returns, it returns the path
    [output_dir / "ftdc_data_<replica_set>_job_<job_id>.tar.gz"], and the
    file at that path holds the body of the response, chunk after
    chunk. *)
Theorem download_ftdc_data_path :
  forall self group_key job_id replica_set output_dir w p,
    fst (download_ftdc_data self group_key job_id replica_set output_dir w)
    = Returned p ->
    p = PathDiv output_dir
          ("ftdc_data_" ++ replica_set ++ "_job_" ++ job_id ++ ".tar.gz")
    /\ exists r,
         server w (served w) = Reply r
         /\ files (snd (download_ftdc_data self group_key job_id replica_set
                          output_dir w)) p
            = Some (List.concat (body_chunks r)).
Proof.
  intros self group_key job_id replica_set output_dir w p.
  unfold download_ftdc_data, bind, session_get, session_send, raise, print,
    open_wb, ret.
  destruct (server w (served w)) as [r|]; [|discriminate].
  destruct (negb (status_code r =? 200)); [discriminate|].
  cbn [locked log].
  set (path := PathDiv output_dir _).
  destruct (locked w path); [discriminate|].
  match goal with
  | |- context [write_chunks path ?cs ?b ?w1] =>
      destruct (write_chunks_appends path b cs w1 [])
        as (w' & Hrun & Hfile)
  end.
  { cbn [files log store]. now rewrite Path_eqb_refl. }
  rewrite Hrun.
  destruct (body_broken r); [discriminate|].
  cbn. intros [= <-]. split; [reflexivity|].
  exists r. split; [reflexivity|]. exact Hfile.
Qed.

(** ** The theorems on concrete runs *)

(** Every list of resource records has a JSON listing that the code reads
    back as those records. *)
Lemma shards_of_listing (records : list Resource) :
  shards_of_data (listing records) = Returned (map shard_of_resource records).
Proof.
  unfold shards_of_data, listing; cbn.
  induction records as [|r rest IH]; [reflexivity|].
  cbn [map comprehension]. rewrite IH.
  unfold shard_of_result, shard_of_resource, result_of_resource; cbn.
  now destruct (groupName r).
Qed.

Lemma get_replica_set_first_match_witness :
  fst (get_replica_set demo_service "g1" "shard-00"
         (fresh_world [Reply (json_response 200 (listing two_shards))]))
  = Returned (PStr "atlas-shard-00").
Proof.
  apply (get_replica_set_first_match demo_service "g1" "shard-00"
           (fresh_world [Reply (json_response 200 (listing two_shards))])
           (json_response 200 (listing two_shards)) (listing two_shards)
           two_shards
           {| alias := "atlas-shard-00-0"; kind := "REPLICA_PRIMARY";
              groupName := Some "atlas-shard-00" |}
           "atlas-shard-00");
    try reflexivity.
  discriminate.
Defined.

Lemma get_replica_set_no_fallback_witness :
  raised_class
    (fst (get_replica_set demo_service "g1" "shard-00"
            (fresh_world [Reply (json_response 200 (listing nameless_first))])))
  = Some ReplicaSetNotFoundError.
Proof.
  rewrite (get_replica_set_no_fallback demo_service "g1" "shard-00"
             (fresh_world [Reply (json_response 200 (listing nameless_first))])
             (json_response 200 (listing nameless_first))
             (listing nameless_first) nameless_first
             {| alias := "atlas-shard-00-0"; kind := "REPLICA_PRIMARY";
                groupName := None |});
    try reflexivity.
  left; reflexivity.
Defined.


Lemma check_job_state_counts_witness :
  exists out w' evs,
    check_job_state 3 demo_service "g1" "job123" 3
      (fresh_world [status_reply "IN_PROGRESS"; status_reply "IN_PROGRESS";
                    status_reply "EXPIRED"])
    = Some (out, w')
    /\ trace w' = evs
    /\ sleeps evs = [3; 3]
    /\ List.length (requests evs) = 3%nat
    /\ raised_class out = Some JobStatusError.
Proof.
  destruct (check_job_state_counts demo_service "g1" "job123" 3
              (fresh_world [status_reply "IN_PROGRESS";
                            status_reply "IN_PROGRESS";
                            status_reply "EXPIRED"])
              2 3 EXPIRED)
    as (out & w' & evs & Hrun & Htrace & Hs & Hq & _ & _ & Hfail).
  - intros [|[|k]] Hk; [reflexivity | reflexivity | lia].
  - reflexivity.
  - discriminate.
  - intros _. reflexivity.
  - lia.
  - exists out, w', evs. rewrite Hq.
    repeat split; try assumption. apply Hfail. now right.
Defined.

(** The claim C4 without a condition on the interval fails: with an
    interval of -1 and one IN_PROGRESS report before SUCCESS, the poller
    does not make one wait and two queries.  It stops at the first wait,
    after one query. *)
Lemma check_job_state_counts_counterexample :
  polled (scripted [status_reply "IN_PROGRESS"; status_reply "SUCCESS"] 0)
  = Some IN_PROGRESS
  /\ polled (scripted [status_reply "IN_PROGRESS"; status_reply "SUCCESS"] 1)
     = Some SUCCESS
  /\ ~ (exists out w' evs,
          check_job_state 2 demo_service "g1" "job123" (-1)
            (fresh_world [status_reply "IN_PROGRESS"; status_reply "SUCCESS"])
          = Some (out, w')
          /\ trace w' = evs
          /\ sleeps evs = repeat (-1) 1
          /\ requests evs = repeat (status_request demo_service "g1" "job123") 2).
Proof.
  split; [reflexivity|]. split; [reflexivity|].
  intros (out & w' & evs & Hrun & Htrace & Hs & _).
  vm_compute in Hrun. injection Hrun as _ <-.
  subst evs. vm_compute in Hs. discriminate.
Qed.

Lemma create_ftdc_job_not_created_witness :
  raised_class
    (fst (create_ftdc_job demo_service "g1" "atlas-shard-00" 10000000
            (fresh_world [Reply (json_response 500 PNone)])))
  = Some JobCreationError.
Proof.
  rewrite (create_ftdc_job_not_created demo_service "g1" "atlas-shard-00"
             10000000 (fresh_world [Reply (json_response 500 PNone)])
             (json_response 500 PNone) eq_refl);
    [reflexivity|].
  cbn. lia.
Defined.

Lemma create_ftdc_job_missing_id_witness :
  fst (create_ftdc_job demo_service "g1" "atlas-shard-00" 10000000
         (fresh_world [Reply (json_response 201 (PDict []))]))
  = Raised (Exn KeyError [FmtVal (PStr "id")]).
Proof.
  apply (create_ftdc_job_missing_id demo_service "g1" "atlas-shard-00"
           10000000 (fresh_world [Reply (json_response 201 (PDict []))])
           (json_response 201 (PDict [])) []);
    reflexivity.
Defined.

Lemma download_ftdc_data_refused_witness :
  exists msg w',
    download_ftdc_data demo_service "g1" "job123" "atlas-shard-00"
      (PathOf "out") (fresh_world [Reply (stream_response 404 [])])
    = (Raised (Exn DownloadError msg), w')
    /\ files w' (PathDiv (PathOf "out")
                   "ftdc_data_atlas-shard-00_job_job123.tar.gz") = None.
Proof.
  destruct (download_ftdc_data_refused demo_service "g1" "job123"
              "atlas-shard-00" (PathOf "out")
              (fresh_world [Reply (stream_response 404 [])])
              (stream_response 404 []) eq_refl)
    as (msg & w' & evs & Hrun & Hfiles & _).
  - cbn. lia.
  - exists msg, w'. split; [exact Hrun|]. now rewrite Hfiles.
Defined.

Lemma download_ftdc_data_path_witness :
  files
    (snd (download_ftdc_data demo_service "g1" "job123" "atlas-shard-00"
            (PathOf "out")
            (fresh_world
               [Reply (stream_response 200 [[x1f; x8b]; [x08]])])))
    (PathDiv (PathOf "out") "ftdc_data_atlas-shard-00_job_job123.tar.gz")
  = Some [x1f; x8b; x08].
Proof.
  destruct (download_ftdc_data_path demo_service "g1" "job123"
              "atlas-shard-00" (PathOf "out")
              (fresh_world
                 [Reply (stream_response 200 [[x1f; x8b]; [x08]])])
              (PathDiv (PathOf "out")
                 "ftdc_data_atlas-shard-00_job_job123.tar.gz")
              eq_refl)
    as (_ & r & Hr & Hfile).
  rewrite Hfile. injection Hr as <-. reflexivity.
Defined.

Lemma get_replica_set_list_failure_witness :
  raised_class
    (fst (get_replica_set demo_service "g1" "shard-00"
            (fresh_world [Reply (json_response 503 (listing two_shards))])))
  = Some ReplicaSetNotFoundError.
Proof.
  rewrite (proj1 (get_replica_set_list_failure demo_service "g1" "shard-00"
                    (fresh_world
                       [Reply (json_response 503 (listing two_shards))])
                    (json_response 503 (listing two_shards)) eq_refl
                    ltac:(cbn; lia))).
  reflexivity.
Defined.

(** The end-to-end scenario of the specification, stage by stage: one
    record, a job created as "job123", IN_PROGRESS then SUCCESS, and the
    artifact on disk. *)
Example scenario_resolve :
  fst (get_replica_set demo_service "g1" "shard-00"
         (fresh_world
            [Reply (json_response 200
                      (listing [ {| alias := "atlas-shard-00-0"; kind := "";
                                    groupName := Some "atlas-shard-00" |} ]))]))
  = Returned (PStr "atlas-shard-00").
Proof. reflexivity. Qed.

Example scenario_submit :
  fst (create_ftdc_job demo_service "g1" "atlas-shard-00" 10000000
         (fresh_world [Reply (json_response 201 (PDict [("id", PStr "job123")]))]))
  = Returned {| id := PStr "job123" |}.
Proof. reflexivity. Qed.

Example scenario_poll :
  option_map fst
    (check_job_state 2 demo_service "g1" "job123" 3
       (fresh_world
          [status_reply "IN_PROGRESS";
           Reply (json_response 200
                    (PDict [("id", PStr "job123"); ("status", PStr "SUCCESS");
                            ("downloadUrl", PStr "https://.../dl")]))]))
  = Some (Returned (PStr "https://.../dl")).
Proof. reflexivity. Qed.

Example scenario_download :
  fst (download_ftdc_data demo_service "g1" "job123" "atlas-shard-00"
         (PathOf ".") (fresh_world [Reply (stream_response 200 [[x1f; x8b]])]))
  = Returned (PathDiv (PathOf ".") "ftdc_data_atlas-shard-00_job_job123.tar.gz").
Proof. reflexivity. Qed.

(** * Beyond the claims *)

(** ** The resolver: no match, odd bodies, odd records *)

(** Whatever the reply, [get_replica_set] sends its one list query and
    does nothing else to the world. *)
Lemma get_replica_set_world self group_key candidate w :
  snd (get_replica_set self group_key candidate w)
  = sent (processes_request self group_key) w.
Proof.
  unfold get_replica_set, bind, session_get, session_send, response_json,
    lift, raise, ret.
  destruct (server w (served w)) as [r|]; [|reflexivity].
  destruct (negb (status_code r =? 200)); [reflexivity|].
  destruct (json_body r) as [data|]; [|reflexivity]. cbn.
  destruct (shards_of_data data) as [shards|e]; [|reflexivity]. cbn.
  now destruct (first_match candidate shards).
Qed.

(** X1. When the list came back and no record matches the candidate,
    [get_replica_set] raises ReplicaSetNotFoundError naming the candidate,
    after its one request. *)
Theorem get_replica_set_no_match :
  forall self group_key candidate w r data (records : list Resource),
    server w (served w) = Reply r ->
    status_code r = 200 ->
    json_body r = Some data ->
    shards_of_data data = Returned (map shard_of_resource records) ->
    find (matches candidate) records = None ->
    get_replica_set self group_key candidate w
    = (Raised (Exn ReplicaSetNotFoundError
                 [Lit "No replica set found that corresponds to ";
                  FmtStr candidate]),
       sent (processes_request self group_key) w).
Proof.
  intros self group_key candidate w r data records Hr Hs Hj Hd Hnone.
  rewrite (surjective_pairing (get_replica_set self group_key candidate w)).
  rewrite get_replica_set_world.
  rewrite (get_replica_set_200 candidate self group_key w r data _ Hr Hs Hj Hd).
  now rewrite first_match_resources, Hnone.
Qed.

(** X2. A 200 response whose JSON object has no "results" key is read as
    an empty list: ReplicaSetNotFoundError for every candidate. *)
Theorem get_replica_set_missing_results :
  forall self group_key candidate w r d,
    server w (served w) = Reply r ->
    status_code r = 200 ->
    json_body r = Some (PDict d) ->
    assoc_get "results" d = None ->
    fst (get_replica_set self group_key candidate w)
    = Raised (Exn ReplicaSetNotFoundError
                [Lit "No replica set found that corresponds to ";
                 FmtStr candidate]).
Proof.
  intros self group_key candidate w r d Hr Hs Hj Hd.
  rewrite (get_replica_set_200 candidate self group_key w r (PDict d) []
             Hr Hs Hj); [reflexivity|].
  unfold shards_of_data, py_get. now rewrite Hd.
Qed.

(** X3. What [get_replica_set] returns is never made up: on well-typed
    records it is the non-empty groupName of a record of the list, one
    that matches the candidate, and the first that does. *)
Theorem get_replica_set_sound :
  forall self group_key candidate w r data (records : list Resource) v,
    server w (served w) = Reply r ->
    status_code r = 200 ->
    json_body r = Some data ->
    shards_of_data data = Returned (map shard_of_resource records) ->
    fst (get_replica_set self group_key candidate w) = Returned v ->
    exists first g,
      v = PStr g /\ g <> ""%string
      /\ groupName first = Some g
      /\ In first records
      /\ matches candidate first = true
      /\ find (matches candidate) records = Some first.
Proof.
  intros self group_key candidate w r data records v Hr Hs Hj Hd.
  rewrite (get_replica_set_200 candidate self group_key w r data _ Hr Hs Hj Hd).
  rewrite first_match_resources.
  destruct (find (matches candidate) records) as [first|] eqn:Hf;
    [|discriminate].
  destruct (find_some _ _ Hf) as [Hin Hm].
  unfold shard_of_resource; cbn.
  destruct (groupName first) as [g|] eqn:Hg; cbn; [|discriminate].
  destruct (g =? "")%string eqn:Hne; cbn; [discriminate|].
  intros [= <-]. exists first, g.
  apply String.eqb_neq in Hne. repeat split; assumption.
Qed.

(** The filter goes through the whole list: an exception at one record
    ends it, whatever the records before it did. *)
Lemma comprehension_if_raises candidate (before : list Resource) bad after e :
  shard_filter candidate bad = Raised e ->
  comprehension_if (shard_filter candidate)
    (map shard_of_resource before ++ bad :: after)
  = Raised e.
Proof.
  intros Hbad. induction before as [|r rest IH]; cbn [map app comprehension_if].
  - now rewrite Hbad.
  - now rewrite shard_filter_matches, IH.
Qed.

(** X4. One record with a null userAlias and no usable replicaSetName
    makes [get_replica_set] raise TypeError, even when a record before it
    matches and has a groupName: the list is filtered to its end before
    the first match is looked at. *)
Theorem get_replica_set_poisoned :
  forall self group_key candidate w r data (before : list Resource) bad after,
    server w (served w) = Reply r ->
    status_code r = 200 ->
    json_body r = Some data ->
    shards_of_data data
    = Returned (map shard_of_resource before ++ bad :: after)%list ->
    user_alias bad = PNone ->
    truthy (replica_set_name bad) = false ->
    fst (get_replica_set self group_key candidate w)
    = Raised (Exn TypeError []).
Proof.
  intros self group_key candidate w r data before bad after Hr Hs Hj Hd Ha Ht.
  rewrite (get_replica_set_200 candidate self group_key w r data _ Hr Hs Hj Hd).
  unfold first_match.
  rewrite (comprehension_if_raises candidate before bad after
             (Exn TypeError [])); [reflexivity|].
  unfold shard_filter. now rewrite Ht, Ha.
Qed.

(** X5. The empty candidate matches every record: [get_replica_set]
    returns the groupName of the first record of the list when it has
    one. *)
Theorem get_replica_set_empty_candidate :
  forall self group_key w r data first (rest : list Resource) g,
    server w (served w) = Reply r ->
    status_code r = 200 ->
    json_body r = Some data ->
    shards_of_data data = Returned (map shard_of_resource (first :: rest)) ->
    groupName first = Some g ->
    g <> ""%string ->
    fst (get_replica_set self group_key "" w) = Returned (PStr g).
Proof.
  intros self group_key w r data first rest g Hr Hs Hj Hd Hg Hne.
  rewrite (get_replica_set_200 "" self group_key w r data _ Hr Hs Hj Hd).
  rewrite first_match_resources.
  assert (matches "" first = true) as Hm.
  { unfold matches. destruct (alias first); cbn; apply orb_true_r. }
  cbn [find]. rewrite Hm.
  unfold shard_of_resource; cbn. rewrite Hg; cbn.
  apply String.eqb_neq in Hne. now rewrite Hne.
Qed.

(** X6. [get_replica_set] is one GET of the processes endpoint and
    nothing more, whatever the server does: no second request, no wait,
    no file opened or written. *)
Theorem get_replica_set_one_request :
  forall self group_key candidate w,
    let w' := snd (get_replica_set self group_key candidate w) in
    trace w' = (trace w ++ [EvRequest (processes_request self group_key)])%list
    /\ served w' = S (served w)
    /\ files w' = files w.
Proof.
  intros self group_key candidate w. cbv zeta.
  rewrite get_replica_set_world. repeat split.
Qed.

(** ** The submitter: what a 201 gives back *)

(** On a [str] the two forms of the creation call are the same. *)
Lemma create_ftdc_job_of_str self group_key replica_set byte_size :
  create_ftdc_job self group_key replica_set byte_size
  = create_ftdc_job_of self group_key (PStr replica_set) byte_size.
Proof. reflexivity. Qed.

Lemma create_ftdc_job_of_world self group_key replica_set byte_size w :
  snd (create_ftdc_job_of self group_key replica_set byte_size w)
  = sent {| req_method := POST;
            req_url := MONGODB_API_BASE_URL ++ "/" ++ group_key
                       ++ "/logCollectionJobs";
            req_auth := auth self;
            req_json := Some (payload_of replica_set byte_size);
            req_headers :=
              [("Content-Type", "application/json; charset=utf-8")];
            req_stream := false |} w.
Proof.
  unfold create_ftdc_job_of, bind, session_post, session_send, response_json,
    lift, ret, raise.
  destruct (server w (served w)) as [r|]; [|reflexivity].
  destruct (negb (status_code r =? 201)); [reflexivity|].
  destruct (json_body r) as [data|]; [|reflexivity]. cbn.
  now destruct (py_getitem data "id").
Qed.

Lemma create_ftdc_job_of_created self group_key replica_set byte_size w r d i :
  server w (served w) = Reply r ->
  status_code r = 201 ->
  json_body r = Some (PDict d) ->
  assoc_get "id" d = Some i ->
  fst (create_ftdc_job_of self group_key replica_set byte_size w)
  = Returned {| id := i |}.
Proof.
  intros Hr Hs Hj Hd.
  unfold create_ftdc_job_of, bind, session_post, session_send, response_json,
    lift, ret, py_getitem.
  now rewrite Hr, Hs, Hj, Hd.
Qed.

Lemma create_ftdc_job_of_refused self group_key replica_set byte_size w r :
  server w (served w) = Reply r ->
  status_code r <> 201 ->
  fst (create_ftdc_job_of self group_key replica_set byte_size w)
  = Raised (Exn JobCreationError
              [Lit "Failed to create FTDC job. Status: ";
               FmtInt (status_code r);
               Lit ", Response: "; FmtStr (text r)]).
Proof.
  intros Hr Hs. apply Z.eqb_neq in Hs.
  unfold create_ftdc_job_of, bind, session_post, session_send, raise.
  now rewrite Hr, Hs.
Qed.

(** X7. On a 201 whose JSON object has an "id", [create_ftdc_job] returns
    a JobId holding that value as it is, of whatever type, having sent
    its one request. *)
Theorem create_ftdc_job_created :
  forall self group_key replica_set byte_size w r d i,
    server w (served w) = Reply r ->
    status_code r = 201 ->
    json_body r = Some (PDict d) ->
    assoc_get "id" d = Some i ->
    create_ftdc_job self group_key replica_set byte_size w
    = (Returned {| id := i |},
       sent (creation_request self group_key replica_set byte_size) w).
Proof.
  intros self group_key replica_set byte_size w r d i Hr Hs Hj Hd.
  rewrite (surjective_pairing
             (create_ftdc_job self group_key replica_set byte_size w)).
  rewrite create_ftdc_job_of_str, create_ftdc_job_of_world.
  now rewrite (create_ftdc_job_of_created self group_key (PStr replica_set)
                 byte_size w r d i Hr Hs Hj Hd).
Qed.

(** X8. When the server answers, [create_ftdc_job] raises
    JobCreationError exactly when the status is not 201: a 201 with a
    body it cannot use fails in other ways, never with this error. *)
Theorem create_ftdc_job_error_iff :
  forall self group_key replica_set byte_size w r,
    server w (served w) = Reply r ->
    raised_class (fst (create_ftdc_job self group_key replica_set byte_size w))
    = Some JobCreationError
    <-> status_code r <> 201.
Proof.
  intros self group_key replica_set byte_size w r Hr.
  unfold create_ftdc_job, bind, session_post, session_send, response_json,
    lift, ret, raise, py_getitem.
  rewrite Hr.
  destruct (status_code r =? 201) eqn:Hs; cbn.
  - apply Z.eqb_eq in Hs. split; [|intros H; now elim H].
    destruct (json_body r) as [[| | | | | |d]|]; cbn; try discriminate.
    destruct (assoc_get "id" d); discriminate.
  - apply Z.eqb_neq in Hs. split; [now intros _ | reflexivity].
Qed.

(** ** The poller: when it ends, and what it leaves alone *)

(** One round, whatever the reply: one query more, the server and the
    disk as they were, and after the query only lines and waits. *)
Lemma check_job_state_round_frame self group_key job_id poll_interval w :
  let res := check_job_state_round self
               (MONGODB_API_BASE_URL ++ "/" ++ group_key
                ++ "/logCollectionJobs/" ++ job_id)
               job_id poll_interval w in
  server (snd res) = server w
  /\ served (snd res) = S (served w)
  /\ locked (snd res) = locked w
  /\ files (snd res) = files w
  /\ exists tail,
       trace (snd res)
       = (trace w ++ EvRequest (status_request self group_key job_id) :: tail)%list
       /\ requests tail = []
       /\ existsb touches_disk tail = false.
Proof.
  cbv zeta.
  unfold check_job_state_round, bind, session_get, session_send,
    response_json, lift, ret, print, raise, time_sleep, log, py_get,
    status_request.
  destruct (server w (served w)) as [r|];
    [|cbn; repeat split; now exists []].
  destruct (negb (status_code r =? 200));
    [cbn; repeat split; now exists []|].
  destruct (json_body r) as [[| | | | | |d]|];
    try (cbn; repeat split; now exists []).
  cbn -[sleep_error].
  repeat match goal with
         | |- context [sleep_error ?a ?b] => destruct (sleep_error a b)
         | |- context [if ?b then _ else _] => destruct b
         end;
    cbn; repeat split; rewrite <- ?app_assoc; cbn;
    eexists; (split; [reflexivity|]); split; reflexivity.
Qed.

(** The first place at which a test fails, when it fails somewhere. *)
Lemma first_false n : forall (f : nat -> bool),
  f n = false ->
  exists k, (k <= n)%nat /\ f k = false
            /\ forall i, (i < k)%nat -> f i = true.
Proof.
  induction n as [|n IH]; intros f Hf.
  - exists 0%nat. repeat split; [lia | exact Hf | intros i Hi; lia].
  - destruct (f 0%nat) eqn:H0.
    + destruct (IH (fun i => f (S i)) Hf) as (k & Hk & Hfk & Hall).
      exists (S k). repeat split; [lia | exact Hfk |].
      intros [|i] Hi; [exact H0 | apply Hall; lia].
    + exists 0%nat. repeat split; [lia | exact H0 | intros i Hi; lia].
Qed.

(** X9. [check_job_state] comes to an end, for some amount of fuel,
    exactly when some reply is not an IN_PROGRESS observation or
    [time.sleep] turns the interval down: the loop has no bound of its
    own, neither a count of rounds nor a deadline. *)
Theorem check_job_state_ends_iff :
  forall self group_key job_id poll_interval w,
    (exists fuel res,
       check_job_state fuel self group_key job_id poll_interval w = Some res)
    <-> (exists n, polled (server w (served w + n)%nat) <> Some IN_PROGRESS)
        \/ sleep_error w poll_interval <> None.
Proof.
  intros self group_key job_id poll_interval w. split.
  - intros (fuel & res & Hrun). revert w Hrun.
    induction fuel as [|fuel IH]; intros w Hrun; [discriminate|].
    destruct (polled (server w (served w))) as [[]|] eqn:Hpol;
      try (left; exists 0%nat; rewrite Nat.add_0_r, Hpol; discriminate).
    destruct (sleep_error w poll_interval) as [c|] eqn:Hsl;
      [right; discriminate|].
    unfold check_job_state in Hrun. cbn [while_true] in Hrun.
    rewrite (round_in_progress self group_key job_id poll_interval w Hpol Hsl)
      in Hrun.
    destruct (IH _ Hrun) as [[n Hn]|Hno].
    + left. exists (S n). cbn [waited server served] in Hn.
      now replace (served w + S n)%nat with (served w + 1 + n)%nat by lia.
    + right. intros _. apply Hno. exact Hsl.
  - intros [[n Hn]|Hsl].
    + destruct (check_job_state_ends self group_key job_id poll_interval n
                  (S n) w Hn (Nat.lt_succ_diag_r n))
        as (out & w' & m & Hrun & _).
      exists (S n). eexists. exact Hrun.
    + destruct (polled (server w (served w))) as [[]|] eqn:Hpol;
        try (destruct (check_job_state_ends self group_key job_id
                         poll_interval 0 1 w)
               as (out & w' & m & Hrun & _);
             [rewrite Nat.add_0_r, Hpol; discriminate | lia |];
             exists 1%nat; eexists; exact Hrun).
      destruct (sleep_error w poll_interval) as [c|] eqn:Hc;
        [|now elim Hsl].
      destruct (check_job_state_refused self group_key job_id poll_interval
                  0 w c Hpol Hc) as (w' & Hrun & _).
      exists 1%nat. eexists. exact Hrun.
Qed.

(** X10. A negative poll interval is not caught before the loop: the
    first IN_PROGRESS observation ends [check_job_state] with the
    exception of [time.sleep], after one query and no wait.  That is a
    ValueError down to -9223372036 seconds, and an OverflowError for an
    interval more negative than that. *)
Theorem check_job_state_negative_wait :
  forall self group_key job_id poll_interval w fuel,
    polled (server w (served w)) = Some IN_PROGRESS ->
    poll_interval < 0 ->
    (0 < fuel)%nat ->
    exists w',
      check_job_state fuel self group_key job_id poll_interval w
      = Some (Raised (Exn (if poll_interval <? -9223372036
                           then OverflowError else ValueError) []), w')
      /\ sleeps (trace w') = sleeps (trace w)
      /\ served w' = S (served w).
Proof.
  intros self group_key job_id poll_interval w fuel Hpol Hp Hfuel.
  destruct fuel as [|fuel]; [lia|].
  assert (sleep_error w poll_interval
          = Some (if poll_interval <? -9223372036
                  then OverflowError else ValueError)) as Hsl.
  { unfold sleep_error.
    destruct (poll_interval <? -9223372036) eqn:Hlow; [reflexivity|].
    destruct (9223372036 <? poll_interval) eqn:Hhigh; [lia|].
    destruct (poll_interval <? 0) eqn:Hneg; [reflexivity | lia]. }
  destruct (check_job_state_refused self group_key job_id poll_interval
              fuel w _ Hpol Hsl) as (w' & Hrun & Hserved & Hs).
  exists w'. split; [exact Hrun|]. split; [exact Hs | exact Hserved].
Qed.

(** X11. However [check_job_state] ends, it has only sent status queries
    for its job, one per reply it consumed, and has not touched the disk:
    no file opened, none written, the files as they were. *)
Theorem check_job_state_frame :
  forall fuel self group_key job_id poll_interval w out w',
    check_job_state fuel self group_key job_id poll_interval w
    = Some (out, w') ->
    files w' = files w
    /\ (served w < served w')%nat
    /\ exists evs,
         trace w' = (trace w ++ evs)%list
         /\ existsb touches_disk evs = false
         /\ requests evs
            = repeat (status_request self group_key job_id)
                (served w' - served w).
Proof.
  intros fuel self group_key job_id poll_interval.
  unfold check_job_state.
  induction fuel as [|fuel IH]; intros w out w' Hrun; [discriminate|].
  cbn [while_true] in Hrun.
  pose proof (check_job_state_round_frame self group_key job_id poll_interval w)
    as (Hsrv & Hserved & _ & Hfiles & tail & Htrace & Hreq & Hdisk).
  destruct (check_job_state_round _ _ _ _ w) as [[[|a]|e] w1];
    cbn [snd] in *.
  - destruct (IH _ _ _ Hrun) as (Hf & Hlt & evs & Ht & Hd & Hq).
    split; [congruence|]. split; [lia|].
    exists (EvRequest (status_request self group_key job_id) :: tail ++ evs)%list.
    rewrite Ht, Htrace, <- app_assoc. split; [reflexivity|].
    split.
    + cbn [existsb touches_disk orb]. rewrite existsb_app, Hdisk, Hd.
      reflexivity.
    + change (requests (?x :: ?l)) with (requests ([x] ++ l)).
      rewrite !requests_app, Hreq, Hq, Hserved. cbn [requests flat_map app].
      replace (served w' - served w)%nat with (S (served w' - S (served w)))
        by lia.
      reflexivity.
  - injection Hrun as <- <-. split; [exact Hfiles|]. split; [lia|].
    exists (EvRequest (status_request self group_key job_id) :: tail).
    rewrite Hserved. replace (S (served w) - served w)%nat with 1%nat by lia.
    repeat split; [exact Htrace | exact Hdisk |].
    change (requests (?x :: ?l)) with (requests ([x] ++ l)).
    now rewrite requests_app, Hreq.
  - injection Hrun as <- <-. split; [exact Hfiles|]. split; [lia|].
    exists (EvRequest (status_request self group_key job_id) :: tail).
    rewrite Hserved. replace (S (served w) - served w)%nat with 1%nat by lia.
    repeat split; [exact Htrace | exact Hdisk |].
    change (requests (?x :: ?l)) with (requests ([x] ++ l)).
    now rewrite requests_app, Hreq.
Qed.

(** ** The downloader: what ends up on disk *)

(** The write loop in full: the chunks are appended to the one file, one
    event each, and nothing else in the world moves. *)
Lemma write_chunks_world p broken chunks : forall w content,
  files w p = Some content ->
  exists w',
    write_chunks p chunks broken w
    = (if broken then Raised (Exn RequestException []) else Returned tt, w')
    /\ files w' p = Some (content ++ List.concat chunks)%list
    /\ (forall q, Path_eqb q p = false -> files w' q = files w q)
    /\ server w' = server w /\ served w' = served w /\ locked w' = locked w
    /\ trace w' = (trace w ++ map (EvChunk p) chunks)%list.
Proof.
  induction chunks as [|chunk rest IH]; intros w content Hc.
  - exists w. cbn [write_chunks List.concat map]. rewrite !app_nil_r.
    repeat split; [now destruct broken | exact Hc].
  - cbn [write_chunks List.concat map].
    unfold bind, file_write. rewrite Hc.
    destruct (IH (log (EvChunk p chunk) (store p (content ++ chunk) w))
                 (content ++ chunk)%list)
      as (w' & Hrun & Hfile & Hothers & Hsrv & Hserved & Hlocked & Htrace).
    { cbn. now rewrite Path_eqb_refl. }
    exists w'. rewrite Hrun. repeat split; try assumption.
    + now rewrite Hfile, <- app_assoc.
    + intros q Hq. rewrite (Hothers q Hq). cbn. now rewrite Hq.
    + rewrite Htrace. cbn. now rewrite <- app_assoc.
Qed.

Lemma requests_chunks p chunks : requests (map (EvChunk p) chunks) = [].
Proof. induction chunks as [|c cs IH]; cbn; auto. Qed.

Lemma sleeps_chunks p chunks : sleeps (map (EvChunk p) chunks) = [].
Proof. induction chunks as [|c cs IH]; cbn; auto. Qed.

(** The download once the response is a 200 and the file could be
    opened: everything but the outcome is settled. *)
Lemma download_ftdc_data_opened self group_key job_id replica_set output_dir
    w r :
  server w (served w) = Reply r ->
  status_code r = 200 ->
  locked w (PathDiv output_dir (artifact_name replica_set job_id)) = false ->
  exists w',
    download_ftdc_data self group_key job_id replica_set output_dir w
    = (if body_broken r then Raised (Exn RequestException [])
       else Returned (PathDiv output_dir (artifact_name replica_set job_id)),
       w')
    /\ files w' (PathDiv output_dir (artifact_name replica_set job_id))
       = Some (List.concat (body_chunks r))
    /\ (forall q,
          Path_eqb q (PathDiv output_dir (artifact_name replica_set job_id))
          = false ->
          files w' q = files w q)
    /\ server w' = server w /\ served w' = S (served w)
    /\ locked w' = locked w
    /\ exists evs,
         trace w' = (trace w ++ evs)%list
         /\ requests evs = [download_request self group_key job_id]
         /\ sleeps evs = [].
Proof.
  intros Hr Hs Hl. apply Z.eqb_eq in Hs. unfold artifact_name in *.
  unfold download_ftdc_data, bind, session_get, session_send, raise, print,
    open_wb, ret.
  rewrite Hr, Hs. cbn [negb locked log]. rewrite Hl.
  match goal with
  | |- context [write_chunks ?path ?cs ?b ?w1] =>
      destruct (write_chunks_world path b cs w1 [])
        as (w' & Hrun & Hfile & Hothers & Hsrv & Hserved & Hlocked & Htrace)
  end.
  { cbn [files log store]. now rewrite Path_eqb_refl. }
  rewrite Hrun.
  destruct (body_broken r); cbn [log server served locked files trace].
  - exists w'. repeat split; try assumption.
    + intros q Hq. rewrite (Hothers q Hq). cbn [files log store].
      now rewrite Hq.
    + rewrite Htrace. cbn [trace log store]. rewrite <- !app_assoc.
      eexists. split; [reflexivity|].
      rewrite !requests_app, !sleeps_app, requests_chunks, sleeps_chunks.
      split; reflexivity.
  - eexists. split; [reflexivity|].
    cbn [log server served locked files trace].
    repeat split; try assumption.
    + intros q Hq. rewrite (Hothers q Hq). cbn [files log store].
      now rewrite Hq.
    + rewrite Htrace. cbn [trace log store]. rewrite <- !app_assoc.
      eexists. split; [reflexivity|].
      rewrite !requests_app, !sleeps_app, requests_chunks, sleeps_chunks.
      split; reflexivity.
Qed.

(** X12. A 200 response, a path that can be opened and a stream that
    holds to its end are enough for [download_ftdc_data] to return: the
    file then holds the whole body, after the one request. *)
Theorem download_ftdc_data_written :
  forall self group_key job_id replica_set output_dir w r,
    server w (served w) = Reply r ->
    status_code r = 200 ->
    locked w (PathDiv output_dir (artifact_name replica_set job_id)) = false ->
    body_broken r = false ->
    exists w',
      download_ftdc_data self group_key job_id replica_set output_dir w
      = (Returned (PathDiv output_dir (artifact_name replica_set job_id)), w')
      /\ files w' (PathDiv output_dir (artifact_name replica_set job_id))
         = Some (List.concat (body_chunks r))
      /\ served w' = S (served w).
Proof.
  intros self group_key job_id replica_set output_dir w r Hr Hs Hl Hb.
  destruct (download_ftdc_data_opened self group_key job_id replica_set
              output_dir w r Hr Hs Hl)
    as (w' & Hrun & Hfile & _ & _ & Hserved & _).
  rewrite Hb in Hrun. now exists w'.
Qed.

(** X13. A stream that breaks is not cleaned up after:
    [download_ftdc_data] raises the exception of [requests], and the
    file stays on disk with every chunk that had arrived. *)
Theorem download_ftdc_data_partial :
  forall self group_key job_id replica_set output_dir w r,
    server w (served w) = Reply r ->
    status_code r = 200 ->
    locked w (PathDiv output_dir (artifact_name replica_set job_id)) = false ->
    body_broken r = true ->
    exists w',
      download_ftdc_data self group_key job_id replica_set output_dir w
      = (Raised (Exn RequestException []), w')
      /\ files w' (PathDiv output_dir (artifact_name replica_set job_id))
         = Some (List.concat (body_chunks r)).
Proof.
  intros self group_key job_id replica_set output_dir w r Hr Hs Hl Hb.
  destruct (download_ftdc_data_opened self group_key job_id replica_set
              output_dir w r Hr Hs Hl)
    as (w' & Hrun & Hfile & _).
  rewrite Hb in Hrun. now exists w'.
Qed.

(** The download when the file cannot be opened. *)
Lemma download_ftdc_data_locked_run self group_key job_id replica_set
    output_dir w r :
  server w (served w) = Reply r ->
  status_code r = 200 ->
  locked w (PathDiv output_dir (artifact_name replica_set job_id)) = true ->
  exists w',
    download_ftdc_data self group_key job_id replica_set output_dir w
    = (Raised (Exn (if has_nul (PathDiv output_dir
                                  (artifact_name replica_set job_id))
                    then ValueError else OSError) []), w')
    /\ files w' = files w
    /\ trace w'
       = (trace w
          ++ [EvRequest (download_request self group_key job_id);
              EvPrint [Lit "Downloading FTDC data for job ";
                       FmtStr job_id; Lit "..."]])%list.
Proof.
  intros Hr Hs Hl.
  apply Z.eqb_eq in Hs. unfold artifact_name in *.
  unfold download_ftdc_data, bind, session_get, session_send, raise, print,
    open_wb, ret.
  rewrite Hr, Hs. cbn [negb locked log]. rewrite Hl.
  eexists. split; [reflexivity|]. cbn [files trace log].
  rewrite <- app_assoc. split; reflexivity.
Qed.


Lemma append_assoc (a b c : string) : ((a ++ b) ++ c = a ++ b ++ c)%string.
Proof. induction a as [|x a IH]; cbn; [reflexivity | now rewrite IH]. Qed.

(** Whatever [download_ftdc_data] returns is the artifact path. *)
Lemma download_ftdc_data_result self group_key job_id replica_set output_dir
    w p :
  fst (download_ftdc_data self group_key job_id replica_set output_dir w)
  = Returned p ->
  p = PathDiv output_dir (artifact_name replica_set job_id).
Proof.
  destruct (server w (served w)) as [r|] eqn:Hr.
  2:{ unfold download_ftdc_data, bind, session_get, session_send.
      rewrite Hr. discriminate. }
  destruct (status_code r =? 200) eqn:Hs.
  2:{ unfold download_ftdc_data, bind, session_get, session_send, raise.
      rewrite Hr, Hs. discriminate. }
  apply Z.eqb_eq in Hs.
  destruct (locked w (PathDiv output_dir (artifact_name replica_set job_id)))
    eqn:Hl.
  - destruct (download_ftdc_data_locked_run self group_key job_id replica_set
                output_dir w r Hr Hs Hl) as (w' & -> & _).
    discriminate.
  - destruct (download_ftdc_data_opened self group_key job_id replica_set
                output_dir w r Hr Hs Hl) as (w' & -> & _).
    destruct (body_broken r); [discriminate|]. now intros [= <-].
Qed.

(** X16. The artifact name does not keep the resource name and the job id
    apart: resource "a_job_b" with job "c" and resource "a" with job
    "b_job_c" are downloaded to the same path, so the later download
    replaces the earlier one. *)
Theorem download_ftdc_data_same_file :
  forall self group_key output_dir w1 w2 a b c p1 p2,
    fst (download_ftdc_data self group_key c (a ++ "_job_" ++ b) output_dir w1)
    = Returned p1 ->
    fst (download_ftdc_data self group_key (b ++ "_job_" ++ c) a output_dir w2)
    = Returned p2 ->
    p1 = p2.
Proof.
  intros self group_key output_dir w1 w2 a b c p1 p2 H1 H2.
  apply download_ftdc_data_result in H1, H2. subst p1 p2.
  f_equal. unfold artifact_name.
  now rewrite !append_assoc.
Qed.

(** ** The orchestrator *)

(** [get_ftdc_data], stage by stage. *)
Lemma get_ftdc_data_stages py_str cwd fuel self group_key candidate byte_size
    output_dir w :
  get_ftdc_data py_str cwd fuel self group_key candidate byte_size output_dir w
  = match get_replica_set self group_key candidate
            (log (EvPrint [Lit "Looking for replica set: "; FmtStr candidate])
               w) with
    | (Raised e, w2) => Some (Raised e, w2)
    | (Returned replica_set, w2) =>
        match create_ftdc_job_of self group_key replica_set byte_size
                (log (EvPrint [Lit "Creating FTDC collection job..."])
                   (log (EvPrint [Lit "Found replica set: ";
                                  FmtVal replica_set]) w2)) with
        | (Raised e, w4) => Some (Raised e, w4)
        | (Returned job, w4) =>
            match check_job_state fuel self group_key (py_str (id job)) 3
                    (log (EvPrint [Lit "Checking job status..."])
                       (log (EvPrint [Lit "Job created with ID: ";
                                      FmtVal (id job)]) w4)) with
            | None => None
            | Some (Raised e, w6) => Some (Raised e, w6)
            | Some (Returned _, w6) =>
                Some (download_ftdc_data self group_key (py_str (id job))
                        (py_str replica_set)
                        (match output_dir with Some d => d | None => cwd end)
                        w6)
            end
        end
    end.
Proof.
  unfold get_ftdc_data, rbind, finite, print, ret. cbn [fst snd].
  destruct (get_replica_set _ _ _ _) as [[replica_set|e] w2]; [|reflexivity].
  destruct (create_ftdc_job_of _ _ _ _ _) as [[job|e] w4]; [|reflexivity].
  destruct (check_job_state _ _ _ _ _ _) as [[[url|e] w6]|]; try reflexivity.
  now destruct (download_ftdc_data _ _ _ _ _ _) as [[p|e] w7].
Qed.

(** The resolver's whole run when the first match has a name. *)
Lemma get_replica_set_resolved self group_key candidate w r data
    (records : list Resource) first g :
  server w (served w) = Reply r ->
  status_code r = 200 ->
  json_body r = Some data ->
  shards_of_data data = Returned (map shard_of_resource records) ->
  find (matches candidate) records = Some first ->
  groupName first = Some g ->
  g <> ""%string ->
  get_replica_set self group_key candidate w
  = (Returned (PStr g), sent (processes_request self group_key) w).
Proof.
  intros Hr Hs Hj Hd Hf Hg Hne.
  rewrite (surjective_pairing (get_replica_set self group_key candidate w)).
  rewrite get_replica_set_world.
  rewrite (get_replica_set_200 candidate self group_key w r data _ Hr Hs Hj Hd).
  rewrite first_match_resources, Hf.
  unfold shard_of_resource; cbn. rewrite Hg; cbn.
  apply String.eqb_neq in Hne. now rewrite Hne.
Qed.

(** A reply that reports a state is a 200 with a JSON object. *)
Lemma polled_reply rp s :
  polled rp = Some s ->
  exists r d, rp = Reply r /\ json_body r = Some (PDict d).
Proof.
  unfold polled, observed_state.
  destruct rp as [r|]; [|discriminate].
  destruct (status_code r =? 200); [|discriminate].
  destruct (json_body r) as [[| | | | | |d]|] eqn:Hj; try discriminate.
  intros _. exists r, d. split; [reflexivity | exact Hj].
Qed.

(** *** A run that goes well

    The first matching record has the name [g], the job is created as
    [j], [n] status queries report IN_PROGRESS and the next SUCCESS or
    MARKED_FOR_EXPIRY, the artifact streams to its end, and the file can
    be opened. *)

Section GoodRun.

Variables (py_str : pyval -> string) (cwd : Path) (fuel : nat).
Variables (self : FTDCService) (group_key candidate : string).
Variables (byte_size : Z) (output_dir : option Path) (w : world).
Variables (r1 r2 r4 : response) (data : pyval) (records : list Resource).
Variables (first : Resource) (g j : string) (d2 : list (string * pyval)).
Variable n : nat.

Hypothesis Hstr : forall s, py_str (PStr s) = s.
Hypothesis Hr1 : server w (served w) = Reply r1.
Hypothesis Hs1 : status_code r1 = 200.
Hypothesis Hj1 : json_body r1 = Some data.
Hypothesis Hd1 : shards_of_data data = Returned (map shard_of_resource records).
Hypothesis Hf : find (matches candidate) records = Some first.
Hypothesis Hg : groupName first = Some g.
Hypothesis Hne : g <> ""%string.
Hypothesis Hr2 : server w (served w + 1)%nat = Reply r2.
Hypothesis Hs2 : status_code r2 = 201.
Hypothesis Hj2 : json_body r2 = Some (PDict d2).
Hypothesis Hd2 : assoc_get "id" d2 = Some (PStr j).
Hypothesis Hn :
  forall k, (k < n)%nat ->
            polled (server w (served w + 2 + k)%nat) = Some IN_PROGRESS.
Hypothesis Hlast :
  polled (server w (served w + 2 + n)%nat) = Some SUCCESS
  \/ polled (server w (served w + 2 + n)%nat) = Some MARKED_FOR_EXPIRY.
Hypothesis Hfuel : (n < fuel)%nat.
Hypothesis Hr4 : server w (served w + 3 + n)%nat = Reply r4.
Hypothesis Hs4 : status_code r4 = 200.
Hypothesis Hb4 : body_broken r4 = false.
Hypothesis Hl :
  locked w (PathDiv (match output_dir with Some d => d | None => cwd end)
              (artifact_name g j)) = false.

Lemma good_run_outcome :
  exists w',
    get_ftdc_data py_str cwd fuel self group_key candidate byte_size
      output_dir w
    = Some (Returned
              (PathDiv (match output_dir with Some d => d | None => cwd end)
                 (artifact_name g j)), w')
    /\ files w' (PathDiv (match output_dir with Some d => d | None => cwd end)
                   (artifact_name g j))
       = Some (List.concat (body_chunks r4))
    /\ served w' = (served w + n + 4)%nat
    /\ sleeps (trace w') = (sleeps (trace w) ++ repeat 3 n)%list.
Proof.
  pose proof Hr2 as Hr2'.
  rewrite get_ftdc_data_stages.
  match goal with
  | |- context [get_replica_set self group_key candidate ?w1] =>
      rewrite (get_replica_set_resolved self group_key candidate w1 r1 data
                 records first g Hr1 Hs1 Hj1 Hd1 Hf Hg Hne)
  end.
  rewrite Nat.add_1_r in Hr2'.
  match goal with
  | |- context [create_ftdc_job_of self group_key (PStr g) byte_size ?w3] =>
      rewrite (surjective_pairing
                 (create_ftdc_job_of self group_key (PStr g) byte_size w3));
      rewrite create_ftdc_job_of_world;
      rewrite (create_ftdc_job_of_created self group_key (PStr g) byte_size
                 w3 r2 d2 (PStr j) Hr2' Hs2 Hj2 Hd2)
  end.
  cbn [id]. rewrite !Hstr.
  match goal with
  | |- context [check_job_state fuel self group_key j 3 ?w5] =>
      destruct (check_job_state_run self group_key j 3 w5 n fuel)
        as (out & tail & Hrun & Hst & _ & _ & Hok)
  end.
  { intros k Hk. cbn [server served sent log].
    replace (S (S (served w)) + k)%nat with (served w + 2 + k)%nat by lia.
    now apply Hn. }
  { cbn [server served sent log].
    replace (S (S (served w)) + n)%nat with (served w + 2 + n)%nat by lia.
    destruct Hlast as [-> | ->]; discriminate. }
  { intros _. reflexivity. }
  { exact Hfuel. }
  rewrite Hrun.
  cbn [server served sent log] in Hok.
  replace (S (S (served w)) + n)%nat with (served w + 2 + n)%nat in Hok by lia.
  assert (exists r d, server w (served w + 2 + n)%nat = Reply r
                      /\ json_body r = Some (PDict d)) as (r3 & d3 & Hr3 & Hj3).
  { destruct Hlast as [H|H]; exact (polled_reply _ _ H). }
  rewrite (Hok r3 d3 Hr3 Hj3 Hlast).
  match goal with
  | |- context [download_ftdc_data self group_key j g ?dir ?w6] =>
      destruct (download_ftdc_data_opened self group_key j g dir w6 r4)
        as (w' & Hdl & Hfile & _ & _ & Hserved & _ & evs & Htrace & _ & Hsl)
  end.
  { cbn [server served sent log].
    replace (S (S (S (served w)) + n))%nat with (served w + 3 + n)%nat by lia.
    exact Hr4. }
  { exact Hs4. }
  { exact Hl. }
  rewrite Hb4 in Hdl. rewrite Hdl.
  exists w'. split; [reflexivity|]. split; [exact Hfile|].
  split.
  - rewrite Hserved. cbn [served sent log]. lia.
  - rewrite Htrace. cbn [trace sent log].
    rewrite !sleeps_app, Hsl, sleeps_rounds.
    change (sleeps (EvRequest ?q :: tail)) with (sleeps tail).
    rewrite Hst. cbn. now rewrite !app_nil_r.
Qed.

(** X17. In such a run [get_ftdc_data] returns
    [dir / "ftdc_data_<g>_job_<j>.tar.gz"], [dir] being [output_dir] or,
    without one, the working directory; the file holds the artifact; the
    run took [n + 4] requests and [n] waits of 3 seconds.  The
    downloadUrl of the status reply plays no part. *)
Theorem get_ftdc_data_completes :
  exists w',
    get_ftdc_data py_str cwd fuel self group_key candidate byte_size
      output_dir w
    = Some (Returned
              (PathDiv (match output_dir with Some d => d | None => cwd end)
                 (artifact_name g j)), w')
    /\ files w' (PathDiv (match output_dir with Some d => d | None => cwd end)
                   (artifact_name g j))
       = Some (List.concat (body_chunks r4))
    /\ served w' = (served w + n + 4)%nat
    /\ sleeps (trace w') = (sleeps (trace w) ++ repeat 3 n)%list.
Proof. exact good_run_outcome. Qed.

(** X18. From the command line the same run ends with exit status 0 and
    one echo, to the standard output, that names the file. *)
Theorem download_exits_zero :
  forall public private,
    self = init public private ->
    exists w',
      download py_str cwd fuel group_key candidate public private byte_size
        output_dir w
      = Some ({| exit_status := 0; to_stderr := false;
                 echoed :=
                   [EText (String (ascii_of_nat 10)
                             (String (ascii_of_nat 19) " Downloaded to: "));
                    EPath (PathDiv (match output_dir with
                                    | Some d => d
                                    | None => cwd
                                    end)
                             (artifact_name g j))] |}, w')
      /\ files w' (PathDiv (match output_dir with Some d => d | None => cwd end)
                     (artifact_name g j))
         = Some (List.concat (body_chunks r4)).
Proof.
  intros public private Hself.
  destruct good_run_outcome as (w' & Hrun & Hfile & _).
  exists w'. unfold download. rewrite <- Hself, Hrun. now split.
Qed.

End GoodRun.

(** *** Runs that stop half way *)

(** The outcome of the list query does not depend on what was printed
    before it. *)
Lemma get_replica_set_after_print self group_key candidate m w :
  fst (get_replica_set self group_key candidate (log (EvPrint m) w))
  = fst (get_replica_set self group_key candidate w).
Proof.
  unfold get_replica_set, bind, session_get, session_send, response_json,
    lift, raise, ret. cbn [server served log].
  destruct (server w (served w)) as [r|]; [|reflexivity].
  destruct (negb (status_code r =? 200)); [reflexivity|].
  destruct (json_body r) as [data|]; [|reflexivity]. cbn.
  destruct (shards_of_data data) as [shards|e]; [|reflexivity]. cbn.
  now destruct (first_match candidate shards).
Qed.

(** X19. Whatever [get_replica_set] raises, [get_ftdc_data] raises the
    very same exception, unwrapped, and stops there: one request was
    sent, no job was created, the disk is as it was. *)
Theorem get_ftdc_data_resolver_error :
  forall py_str cwd fuel self group_key candidate byte_size output_dir w e,
    fst (get_replica_set self group_key candidate w) = Raised e ->
    exists w',
      get_ftdc_data py_str cwd fuel self group_key candidate byte_size
        output_dir w
      = Some (Raised e, w')
      /\ served w' = S (served w)
      /\ files w' = files w
      /\ requests (trace w')
         = (requests (trace w) ++ [processes_request self group_key])%list.
Proof.
  intros py_str cwd fuel self group_key candidate byte_size output_dir w e He.
  rewrite get_ftdc_data_stages.
  match goal with
  | |- context [get_replica_set self group_key candidate ?w1] =>
      rewrite (surjective_pairing
                 (get_replica_set self group_key candidate w1));
      rewrite get_replica_set_world, get_replica_set_after_print, He
  end.
  eexists. split; [reflexivity|]. cbn [served files trace sent log].
  repeat split. now rewrite !requests_app, app_nil_r.
Qed.

Section AfterResolution.

Variables (py_str : pyval -> string) (cwd : Path) (fuel : nat).
Variables (self : FTDCService) (group_key candidate : string).
Variables (byte_size : Z) (output_dir : option Path) (w : world).
Variables (r1 : response) (data : pyval) (records : list Resource).
Variables (first : Resource) (g : string).

Hypothesis Hstr : forall s, py_str (PStr s) = s.
Hypothesis Hr1 : server w (served w) = Reply r1.
Hypothesis Hs1 : status_code r1 = 200.
Hypothesis Hj1 : json_body r1 = Some data.
Hypothesis Hd1 : shards_of_data data = Returned (map shard_of_resource records).
Hypothesis Hf : find (matches candidate) records = Some first.
Hypothesis Hg : groupName first = Some g.
Hypothesis Hne : g <> ""%string.

(** The run up to the creation call, which is made for the name [g]. *)
Lemma get_ftdc_data_resolved :
  get_ftdc_data py_str cwd fuel self group_key candidate byte_size output_dir w
  = match create_ftdc_job_of self group_key (PStr g) byte_size
            (log (EvPrint [Lit "Creating FTDC collection job..."])
               (log (EvPrint [Lit "Found replica set: "; FmtVal (PStr g)])
                  (sent (processes_request self group_key)
                     (log (EvPrint [Lit "Looking for replica set: ";
                                    FmtStr candidate]) w)))) with
    | (Raised e, w4) => Some (Raised e, w4)
    | (Returned job, w4) =>
        match check_job_state fuel self group_key (py_str (id job)) 3
                (log (EvPrint [Lit "Checking job status..."])
                   (log (EvPrint [Lit "Job created with ID: ";
                                  FmtVal (id job)]) w4)) with
        | None => None
        | Some (Raised e, w6) => Some (Raised e, w6)
        | Some (Returned _, w6) =>
            Some (download_ftdc_data self group_key (py_str (id job)) g
                    (match output_dir with Some d => d | None => cwd end)
                    w6)
        end
    end.
Proof.
  rewrite get_ftdc_data_stages.
  match goal with
  | |- context [get_replica_set self group_key candidate ?w1] =>
      rewrite (get_replica_set_resolved self group_key candidate w1 r1 data
                 records first g Hr1 Hs1 Hj1 Hd1 Hf Hg Hne)
  end.
  now rewrite Hstr.
Qed.

(** X20. When the creation call is answered with anything but a 201
    [get_ftdc_data] raises JobCreationError after two requests: the job
    is never polled, nothing is downloaded, nobody waits. *)
Theorem get_ftdc_data_not_created :
  forall r2,
    server w (served w + 1)%nat = Reply r2 ->
    status_code r2 <> 201 ->
    exists w',
      get_ftdc_data py_str cwd fuel self group_key candidate byte_size
        output_dir w
      = Some (Raised (Exn JobCreationError
                        [Lit "Failed to create FTDC job. Status: ";
                         FmtInt (status_code r2);
                         Lit ", Response: "; FmtStr (text r2)]), w')
      /\ served w' = (served w + 2)%nat
      /\ files w' = files w
      /\ sleeps (trace w') = sleeps (trace w).
Proof.
  intros r2 Hr2 Hs2. rewrite Nat.add_1_r in Hr2.
  rewrite get_ftdc_data_resolved.
  match goal with
  | |- context [create_ftdc_job_of self group_key (PStr g) byte_size ?w3] =>
      rewrite (surjective_pairing
                 (create_ftdc_job_of self group_key (PStr g) byte_size w3));
      rewrite create_ftdc_job_of_world;
      rewrite (create_ftdc_job_of_refused self group_key (PStr g) byte_size
                 w3 r2 Hr2 Hs2)
  end.
  eexists. split; [reflexivity|]. cbn [served files trace sent log].
  repeat split; [lia|].
  rewrite !sleeps_app. cbn. now rewrite !app_nil_r.
Qed.

(** X21. When the 201 has no "id" the KeyError of the submitter comes
    out of [get_ftdc_data] as it is, and the command line reports it as
    an unexpected error with exit status 1. *)
Theorem download_missing_id :
  forall public private r2 d2,
    self = init public private ->
    server w (served w + 1)%nat = Reply r2 ->
    status_code r2 = 201 ->
    json_body r2 = Some (PDict d2) ->
    assoc_get "id" d2 = None ->
    exists w',
      download py_str cwd fuel group_key candidate public private byte_size
        output_dir w
      = Some ({| exit_status := 1; to_stderr := true;
                 echoed := [EText "Unexpected error: ";
                            EExn (Exn KeyError [FmtVal (PStr "id")])] |}, w')
      /\ served w' = (served w + 2)%nat
      /\ files w' = files w.
Proof.
  intros public private r2 d2 Hself Hr2 Hs2 Hj2 Hd2.
  rewrite Nat.add_1_r in Hr2.
  unfold download. rewrite <- Hself, get_ftdc_data_resolved.
  match goal with
  | |- context [create_ftdc_job_of self group_key (PStr g) byte_size ?w3] =>
      rewrite (surjective_pairing
                 (create_ftdc_job_of self group_key (PStr g) byte_size w3));
      rewrite create_ftdc_job_of_world;
      assert (fst (create_ftdc_job_of self group_key (PStr g) byte_size w3)
              = Raised (Exn KeyError [FmtVal (PStr "id")])) as ->
  end.
  { unfold create_ftdc_job_of, bind, session_post, session_send,
      response_json, lift, ret, py_getitem.
    cbn [server served sent log]. now rewrite Hr2, Hs2, Hj2, Hd2. }
  cbn [exn_cls is_FTDCError].
  eexists. split; [reflexivity|]. cbn [served files sent log].
  split; [lia | reflexivity].
Qed.

(** X22. A job that ends in FAILURE or EXPIRED after [n] IN_PROGRESS
    reports makes [get_ftdc_data] raise JobStatusError after [n + 3]
    requests: the list query, the creation call and the status queries.
    No download is asked for, and the disk is as it was. *)
Theorem get_ftdc_data_job_failed :
  forall r2 d2 j n,
    server w (served w + 1)%nat = Reply r2 ->
    status_code r2 = 201 ->
    json_body r2 = Some (PDict d2) ->
    assoc_get "id" d2 = Some (PStr j) ->
    (forall k, (k < n)%nat ->
               polled (server w (served w + 2 + k)%nat) = Some IN_PROGRESS) ->
    polled (server w (served w + 2 + n)%nat) = Some FAILURE
    \/ polled (server w (served w + 2 + n)%nat) = Some EXPIRED ->
    (n < fuel)%nat ->
    exists e w' evs,
      get_ftdc_data py_str cwd fuel self group_key candidate byte_size
        output_dir w
      = Some (Raised e, w')
      /\ exn_cls e = JobStatusError
      /\ files w' = files w
      /\ trace w' = (trace w ++ evs)%list
      /\ requests evs
         = processes_request self group_key
           :: creation_request self group_key g byte_size
           :: repeat (status_request self group_key j) (S n).
Proof.
  intros r2 d2 j n Hr2 Hs2 Hj2 Hd2 Hn Hlast Hfuel.
  rewrite Nat.add_1_r in Hr2.
  rewrite get_ftdc_data_resolved.
  match goal with
  | |- context [create_ftdc_job_of self group_key (PStr g) byte_size ?w3] =>
      rewrite (surjective_pairing
                 (create_ftdc_job_of self group_key (PStr g) byte_size w3));
      rewrite create_ftdc_job_of_world;
      rewrite (create_ftdc_job_of_created self group_key (PStr g) byte_size
                 w3 r2 d2 (PStr j) Hr2 Hs2 Hj2 Hd2)
  end.
  cbn [id]. rewrite !Hstr.
  match goal with
  | |- context [check_job_state fuel self group_key j 3 ?w5] =>
      destruct (check_job_state_run self group_key j 3 w5 n fuel)
        as (out & tail & Hrun & _ & Hq & Hiff & _)
  end.
  { intros k Hk. cbn [server served sent log].
    replace (S (S (served w)) + k)%nat with (served w + 2 + k)%nat by lia.
    now apply Hn. }
  { cbn [server served sent log].
    replace (S (S (served w)) + n)%nat with (served w + 2 + n)%nat by lia.
    destruct Hlast as [-> | ->]; discriminate. }
  { intros _. reflexivity. }
  { exact Hfuel. }
  rewrite Hrun.
  cbn [server served sent log] in Hiff.
  replace (S (S (served w)) + n)%nat with (served w + 2 + n)%nat in Hiff by lia.
  assert (raised_class out = Some JobStatusError) as Hout.
  { apply Hiff. right. unfold polled in Hlast.
    destruct (observed_state (server w (served w + 2 + n)%nat)) as [status|];
      [|destruct Hlast; discriminate].
    exists status. split; [reflexivity|]. tauto. }
  destruct out as [url|e]; [discriminate|].
  injection Hout as Hcls.
  exists e. eexists. eexists.
  split; [reflexivity|]. split; [exact Hcls|].
  cbn [files trace sent log]. split; [reflexivity|].
  rewrite <- !app_assoc. split; [reflexivity|].
  rewrite !requests_app, requests_rounds.
  change (requests (EvRequest ?q :: tail)) with (q :: requests tail).
  rewrite Hq. cbn [requests flat_map app].
  rewrite <- repeat_cons. reflexivity.
Qed.

End AfterResolution.

(** X23. A list query answered with anything but a 200 ends the command
    with exit status 1 and "Error: " followed by the
    ReplicaSetNotFoundError on the error stream, after that one request. *)
Theorem download_list_failure :
  forall py_str cwd fuel group_key candidate public private size output_dir
         w r,
    server w (served w) = Reply r ->
    status_code r <> 200 ->
    exists w',
      download py_str cwd fuel group_key candidate public private size
        output_dir w
      = Some ({| exit_status := 1; to_stderr := true;
                 echoed :=
                   [EText "Error: ";
                    EExn (Exn ReplicaSetNotFoundError
                            [Lit "Failed to get processes. Status: ";
                             FmtInt (status_code r);
                             Lit ", Response: "; FmtStr (text r)])] |}, w')
      /\ served w' = S (served w)
      /\ files w' = files w.
Proof.
  intros py_str cwd fuel group_key candidate public private size output_dir
    w r Hr Hs.
  apply Z.eqb_neq in Hs.
  unfold download. rewrite get_ftdc_data_stages.
  match goal with
  | |- context [get_replica_set ?self group_key candidate ?w1] =>
      rewrite (surjective_pairing (get_replica_set self group_key candidate w1));
      rewrite get_replica_set_world, get_replica_set_after_print;
      assert (fst (get_replica_set self group_key candidate w)
              = Raised (Exn ReplicaSetNotFoundError
                          [Lit "Failed to get processes. Status: ";
                           FmtInt (status_code r);
                           Lit ", Response: "; FmtStr (text r)])) as ->
  end.
  { unfold get_replica_set, bind, session_get, session_send, raise.
    now rewrite Hr, Hs. }
  cbn [exn_cls is_FTDCError].
  eexists. split; [reflexivity|]. now cbn [served files sent log].
Qed.

(** ** Which errors of errors.py can come out *)

Lemma comprehension_raises {A B} (f : A -> outcome B) xs e :
  comprehension f xs = Raised e -> exists x, In x xs /\ f x = Raised e.
Proof.
  induction xs as [|x rest IH]; cbn [comprehension]; [discriminate|].
  destruct (f x) as [y|e'] eqn:Hx; cbn.
  - destruct (comprehension f rest) as [ys|e'']; cbn; [discriminate|].
    intros [= <-]. destruct (IH eq_refl) as (x' & Hin & Hx').
    exists x'. split; [now right | exact Hx'].
  - intros [= <-]. exists x. split; [now left | exact Hx].
Qed.

Lemma comprehension_if_raises_at {A} (cond : A -> outcome bool) xs e :
  comprehension_if cond xs = Raised e ->
  exists x, In x xs /\ cond x = Raised e.
Proof.
  induction xs as [|x rest IH]; cbn [comprehension_if]; [discriminate|].
  destruct (cond x) as [y|e'] eqn:Hx; cbn.
  - destruct (comprehension_if cond rest) as [ys|e'']; cbn; [discriminate|].
    intros [= <-]. destruct (IH eq_refl) as (x' & Hin & Hx').
    exists x'. split; [now right | exact Hx'].
  - intros [= <-]. exists x. split; [now left | exact Hx].
Qed.

Lemma py_contains_raises needle v e :
  py_contains needle v = Raised e -> exn_cls e = TypeError.
Proof. destruct v; cbn; try discriminate; now intros [= <-]. Qed.

Lemma py_get_raises v k default e :
  py_get v k default = Raised e -> exn_cls e = AttributeError.
Proof. destruct v; cbn; try discriminate; now intros [= <-]. Qed.

Lemma shard_filter_raises candidate shard e :
  shard_filter candidate shard = Raised e -> exn_cls e = TypeError.
Proof.
  unfold shard_filter.
  destruct (truthy (replica_set_name shard)).
  - destruct (py_contains candidate (replica_set_name shard)) as [[|]|e']
      eqn:Hc; cbn.
    + discriminate.
    + apply py_contains_raises.
    + intros [= <-]. exact (py_contains_raises _ _ _ Hc).
  - apply py_contains_raises.
Qed.

Lemma shards_of_data_raises data e :
  shards_of_data data = Raised e -> is_FTDCError (exn_cls e) = false.
Proof.
  unfold shards_of_data.
  destruct (py_get data "results" (PList [])) as [results|e'] eqn:Hg; cbn.
  2:{ intros [= <-]. now rewrite (py_get_raises _ _ _ _ Hg). }
  destruct (py_iter results) as [items|e'] eqn:Hi; cbn.
  2:{ intros [= <-]. destruct results; cbn in Hi; try discriminate;
      now injection Hi as <-. }
  intros Hc. apply comprehension_raises in Hc. destruct Hc as (x & _ & Hx).
  unfold shard_of_result in Hx.
  repeat match type of Hx with
         | obind (py_get ?v ?k ?d) _ = _ =>
             let H := fresh "Hget" in
             destruct (py_get v k d) eqn:H; cbn in Hx;
             [|injection Hx as <-; now rewrite (py_get_raises _ _ _ _ H)]
         end.
  discriminate.
Qed.

Lemma first_match_raises candidate shards e :
  first_match candidate shards = Raised e ->
  is_FTDCError (exn_cls e) = true ->
  exn_cls e = ReplicaSetNotFoundError.
Proof.
  unfold first_match.
  destruct (comprehension_if (shard_filter candidate) shards)
    as [matching|e'] eqn:Hc; cbn.
  - destruct matching as [|first_shard rest]; [now intros [= <-]|].
    destruct (truthy (replica_set_name first_shard)); [discriminate|].
    now intros [= <-].
  - intros [= <-] Hf. apply comprehension_if_raises_at in Hc.
    destruct Hc as (x & _ & Hx).
    rewrite (shard_filter_raises _ _ _ Hx) in Hf. discriminate.
Qed.

Lemma get_replica_set_raises self group_key candidate w e :
  fst (get_replica_set self group_key candidate w) = Raised e ->
  is_FTDCError (exn_cls e) = true ->
  exn_cls e = ReplicaSetNotFoundError.
Proof.
  unfold get_replica_set, bind, session_get, session_send, response_json,
    lift, raise, ret.
  destruct (server w (served w)) as [r|];
    [|cbn; intros [= <-]; discriminate].
  destruct (negb (status_code r =? 200)); [cbn; now intros [= <-]|].
  destruct (json_body r) as [data|]; [|cbn; intros [= <-]; discriminate].
  cbn.
  destruct (shards_of_data data) as [shards|e'] eqn:Hd; cbn.
  - destruct (first_match candidate shards) eqn:Hm; cbn; [discriminate|].
    intros [= <-]. exact (first_match_raises _ _ _ Hm).
  - intros [= <-] Hf. rewrite (shards_of_data_raises _ _ Hd) in Hf.
    discriminate.
Qed.

Lemma create_ftdc_job_of_raises self group_key replica_set byte_size w e :
  fst (create_ftdc_job_of self group_key replica_set byte_size w) = Raised e ->
  is_FTDCError (exn_cls e) = true ->
  exn_cls e = JobCreationError.
Proof.
  unfold create_ftdc_job_of, bind, session_post, session_send, response_json,
    lift, raise, ret, py_getitem.
  destruct (server w (served w)) as [r|];
    [|cbn; intros [= <-]; discriminate].
  destruct (negb (status_code r =? 201)); [cbn; now intros [= <-]|].
  destruct (json_body r) as [[| | | | | |d]|]; cbn;
    try (intros [= <-]; discriminate).
  destruct (assoc_get "id" d); cbn; [discriminate|].
  intros [= <-]; discriminate.
Qed.

Lemma check_job_state_raises fuel self group_key job_id poll_interval :
  forall w e w',
    check_job_state fuel self group_key job_id poll_interval w
    = Some (Raised e, w') ->
    is_FTDCError (exn_cls e) = true ->
    exn_cls e = JobStatusError.
Proof.
  unfold check_job_state.
  induction fuel as [|fuel IH]; intros w e w'; [discriminate|].
  cbn [while_true].
  destruct (check_job_state_round _ _ _ _ w) as [[[|a]|e0] w1] eqn:Hround.
  - apply IH.
  - discriminate.
  - intros [= <- <-]. revert Hround.
    unfold check_job_state_round, bind, session_get, session_send,
      response_json, lift, ret, print, raise, time_sleep, log, py_get.
    destruct (server w (served w)) as [r|];
      [|cbn; intros [= <- <-]; discriminate].
    destruct (negb (status_code r =? 200)); [cbn; now intros [= <- <-]|].
    destruct (json_body r) as [[| | | | | |d]|]; cbn -[sleep_error];
      try (intros [= <- <-]; discriminate).
    repeat match goal with
           | |- context [sleep_error ?a ?b] =>
               let H := fresh "Hsl" in destruct (sleep_error a b) eqn:H
           | |- context [if ?b then _ else _] => destruct b
           end;
      cbn; try discriminate; intros [= <- <-]; try discriminate;
      try reflexivity.
    all: cbn; intros Hf;
      match goal with
      | H : sleep_error _ _ = Some _ |- _ =>
          destruct (sleep_error_class _ _ _ H) as [ -> | [ -> | -> ] ];
            discriminate
      end.
Qed.

Lemma download_ftdc_data_raises self group_key job_id replica_set output_dir
    w e :
  fst (download_ftdc_data self group_key job_id replica_set output_dir w)
  = Raised e ->
  is_FTDCError (exn_cls e) = true ->
  exn_cls e = DownloadError.
Proof.
  destruct (server w (served w)) as [r|] eqn:Hr.
  2:{ unfold download_ftdc_data, bind, session_get, session_send.
      rewrite Hr. cbn. intros [= <-]; discriminate. }
  destruct (status_code r =? 200) eqn:Hs.
  2:{ unfold download_ftdc_data, bind, session_get, session_send, raise.
      rewrite Hr, Hs. cbn. now intros [= <-]. }
  apply Z.eqb_eq in Hs.
  destruct (locked w (PathDiv output_dir (artifact_name replica_set job_id)))
    eqn:Hl.
  - destruct (download_ftdc_data_locked_run self group_key job_id replica_set
                output_dir w r Hr Hs Hl) as (w' & -> & _).
    cbn [fst]. intros H Hf. injection H as He. subst e.
    cbn [exn_cls] in Hf.
    match type of Hf with
    | context [if ?b then _ else _] => destruct b
    end; discriminate.
  - destruct (download_ftdc_data_opened self group_key job_id replica_set
                output_dir w r Hr Hs Hl) as (w' & -> & _).
    destruct (body_broken r); cbn; [|discriminate].
    intros [= <-]; discriminate.
Qed.

(** X24. Of the error classes of errors.py, [get_ftdc_data] can only
    raise the four of its stages: never AuthenticationError, whatever the
    server answers, and never the bare FTDCError. *)
Theorem get_ftdc_data_error_classes :
  forall py_str cwd fuel self group_key candidate byte_size output_dir w e w',
    get_ftdc_data py_str cwd fuel self group_key candidate byte_size
      output_dir w
    = Some (Raised e, w') ->
    is_FTDCError (exn_cls e) = true ->
    In (exn_cls e)
      [ReplicaSetNotFoundError; JobCreationError; JobStatusError;
       DownloadError].
Proof.
  intros py_str cwd fuel self group_key candidate byte_size output_dir w e w'.
  rewrite get_ftdc_data_stages.
  destruct (get_replica_set _ _ _ _) as [[replica_set|e1] w2] eqn:H1.
  2:{ intros [= <- <-] Hf. left. symmetry.
      match type of H1 with
      | get_replica_set _ _ _ ?w1 = _ =>
          apply (get_replica_set_raises self group_key candidate w1 e1);
            [now rewrite H1 | exact Hf]
      end. }
  destruct (create_ftdc_job_of _ _ _ _ _) as [[job|e2] w4] eqn:H2.
  2:{ intros [= <- <-] Hf. right; left. symmetry.
      match type of H2 with
      | create_ftdc_job_of _ _ _ _ ?w3 = _ =>
          apply (create_ftdc_job_of_raises self group_key replica_set
                   byte_size w3 e2); [now rewrite H2 | exact Hf]
      end. }
  destruct (check_job_state _ _ _ _ _ _) as [[[url|e3] w6]|] eqn:H3;
    [| |discriminate].
  2:{ intros [= <- <-] Hf. right; right; left. symmetry.
      exact (check_job_state_raises _ _ _ _ _ _ _ _ H3 Hf). }
  destruct (download_ftdc_data _ _ _ _ _ _) as [[p|e4] w7] eqn:H4;
    [discriminate|].
  intros [= <- <-] Hf. right; right; right; left. symmetry.
  apply (download_ftdc_data_raises self group_key (py_str (id job))
           (py_str replica_set)
           (match output_dir with Some d => d | None => cwd end) w6 e4);
    [now rewrite H4 | exact Hf].
Qed.

(** ** The properties above on concrete runs *)

Lemma get_replica_set_no_match_witness :
  raised_class
    (fst (get_replica_set demo_service "g1" "shard-99"
            (fresh_world [Reply (json_response 200 (listing two_shards))])))
  = Some ReplicaSetNotFoundError.
Proof.
  rewrite (get_replica_set_no_match demo_service "g1" "shard-99"
             (fresh_world [Reply (json_response 200 (listing two_shards))])
             (json_response 200 (listing two_shards)) (listing two_shards)
             two_shards);
    reflexivity.
Defined.

Lemma get_replica_set_missing_results_witness :
  raised_class
    (fst (get_replica_set demo_service "g1" "shard-00"
            (fresh_world [Reply (json_response 200 (PDict []))])))
  = Some ReplicaSetNotFoundError.
Proof.
  rewrite (get_replica_set_missing_results demo_service "g1" "shard-00"
             (fresh_world [Reply (json_response 200 (PDict []))])
             (json_response 200 (PDict [])) []);
    reflexivity.
Defined.

Lemma get_replica_set_sound_witness :
  exists first,
    In first two_shards /\ groupName first = Some "atlas-shard-00".
Proof.
  destruct (get_replica_set_sound demo_service "g1" "shard-00"
              (fresh_world [Reply (json_response 200 (listing two_shards))])
              (json_response 200 (listing two_shards)) (listing two_shards)
              two_shards (PStr "atlas-shard-00")
              eq_refl eq_refl eq_refl eq_refl eq_refl)
    as (first & g & Hv & _ & Hg & Hin & _).
  exists first. injection Hv as <-. now split.
Defined.

Lemma get_replica_set_poisoned_witness :
  fst (get_replica_set demo_service "g1" "shard-00"
         (fresh_world [Reply (json_response 200 poisoned_listing)]))
  = Raised (Exn TypeError []).
Proof.
  apply (get_replica_set_poisoned demo_service "g1" "shard-00"
           (fresh_world [Reply (json_response 200 poisoned_listing)])
           (json_response 200 poisoned_listing) poisoned_listing
           [ {| alias := "atlas-shard-00-0"; kind := "REPLICA_PRIMARY";
                groupName := Some "atlas-shard-00" |} ]
           {| user_alias := PNone; type_name := PStr "";
              replica_set_name := PNone |}
           []);
    reflexivity.
Defined.

Lemma get_replica_set_empty_candidate_witness :
  fst (get_replica_set demo_service "g1" ""
         (fresh_world [Reply (json_response 200 (listing two_shards))]))
  = Returned (PStr "atlas-shard-00").
Proof.
  apply (get_replica_set_empty_candidate demo_service "g1"
           (fresh_world [Reply (json_response 200 (listing two_shards))])
           (json_response 200 (listing two_shards)) (listing two_shards)
           {| alias := "atlas-shard-00-0"; kind := "REPLICA_PRIMARY";
              groupName := Some "atlas-shard-00" |}
           [ {| alias := "shard-00"; kind := "REPLICA_SECONDARY";
                groupName := Some "shard-00" |} ]
           "atlas-shard-00");
    try reflexivity.
  discriminate.
Defined.

Lemma create_ftdc_job_created_witness :
  fst (create_ftdc_job demo_service "g1" "atlas-shard-00" 10000000
         (fresh_world [Reply (json_response 201 (PDict [("id", PInt 7)]))]))
  = Returned {| id := PInt 7 |}.
Proof.
  rewrite (create_ftdc_job_created demo_service "g1" "atlas-shard-00" 10000000
             (fresh_world [Reply (json_response 201 (PDict [("id", PInt 7)]))])
             (json_response 201 (PDict [("id", PInt 7)])) [("id", PInt 7)]
             (PInt 7));
    reflexivity.
Defined.

Lemma create_ftdc_job_error_iff_witness :
  raised_class
    (fst (create_ftdc_job demo_service "g1" "atlas-shard-00" 10000000
            (fresh_world [Reply (json_response 200 (PDict [("id", PStr "x")]))])))
  = Some JobCreationError.
Proof.
  apply (create_ftdc_job_error_iff demo_service "g1" "atlas-shard-00" 10000000
           (fresh_world [Reply (json_response 200 (PDict [("id", PStr "x")]))])
           (json_response 200 (PDict [("id", PStr "x")])) eq_refl).
  cbn. lia.
Defined.

Lemma check_job_state_negative_wait_witness :
  exists w',
    check_job_state 5 demo_service "g1" "job123" (-1)
      (fresh_world [status_reply "IN_PROGRESS"; status_reply "SUCCESS"])
    = Some (Raised (Exn ValueError []), w')
    /\ served w' = 1%nat.
Proof.
  destruct (check_job_state_negative_wait demo_service "g1" "job123" (-1)
              (fresh_world [status_reply "IN_PROGRESS"; status_reply "SUCCESS"])
              5 eq_refl)
    as (w' & Hrun & _ & Hserved).
  - lia.
  - lia.
  - now exists w'.
Defined.

Lemma check_job_state_frame_witness :
  files
    (match check_job_state 2 demo_service "g1" "job123" 3
             (fresh_world [status_reply "IN_PROGRESS"; status_reply "SUCCESS"])
     with
     | Some (_, w') => w'
     | None => busy_world
     end)
    (PathOf "anything")
  = None.
Proof.
  destruct (check_job_state 2 demo_service "g1" "job123" 3
              (fresh_world [status_reply "IN_PROGRESS"; status_reply "SUCCESS"]))
    as [[out w']|] eqn:Hrun; [|reflexivity].
  destruct (check_job_state_frame 2 demo_service "g1" "job123" 3 _ out w' Hrun)
    as (Hfiles & _).
  now rewrite Hfiles.
Defined.

Lemma download_ftdc_data_written_witness :
  exists w',
    download_ftdc_data demo_service "g1" "job123" "atlas-shard-00"
      (PathOf "out") (fresh_world [Reply (stream_response 200 [[x1f]; [x8b]])])
    = (Returned (PathDiv (PathOf "out")
                   "ftdc_data_atlas-shard-00_job_job123.tar.gz"), w')
    /\ files w' (PathDiv (PathOf "out")
                   "ftdc_data_atlas-shard-00_job_job123.tar.gz")
       = Some [x1f; x8b].
Proof.
  destruct (download_ftdc_data_written demo_service "g1" "job123"
              "atlas-shard-00" (PathOf "out")
              (fresh_world [Reply (stream_response 200 [[x1f]; [x8b]])])
              (stream_response 200 [[x1f]; [x8b]])
              eq_refl eq_refl eq_refl eq_refl)
    as (w' & Hrun & Hfile & _).
  now exists w'.
Defined.

Lemma download_ftdc_data_partial_witness :
  exists w',
    download_ftdc_data demo_service "g1" "job123" "atlas-shard-00"
      (PathOf "out") (fresh_world [Reply (broken_response [[x1f]; [x8b]])])
    = (Raised (Exn RequestException []), w')
    /\ files w' (PathDiv (PathOf "out")
                   "ftdc_data_atlas-shard-00_job_job123.tar.gz")
       = Some [x1f; x8b].
Proof.
  exact (download_ftdc_data_partial demo_service "g1" "job123"
           "atlas-shard-00" (PathOf "out")
           (fresh_world [Reply (broken_response [[x1f]; [x8b]])])
           (broken_response [[x1f]; [x8b]])
           eq_refl eq_refl eq_refl eq_refl).
Defined.


Lemma download_ftdc_data_same_file_witness :
  PathDiv (PathOf "out") "ftdc_data_a_job_b_job_c.tar.gz"
  = PathDiv (PathOf "out") "ftdc_data_a_job_b_job_c.tar.gz".
Proof.
  exact (download_ftdc_data_same_file demo_service "g1" (PathOf "out")
           (fresh_world [Reply (stream_response 200 [[x1f]])])
           (fresh_world [Reply (stream_response 200 [[x8b]])])
           "a" "b" "c" _ _ eq_refl eq_refl).
Defined.

Lemma get_ftdc_data_completes_witness :
  exists w',
    get_ftdc_data str_of_text (PathOf ".") 2 demo_service "g1" "shard-00"
      10000000 None (fresh_world good_run)
    = Some (Returned (PathDiv (PathOf ".")
                        "ftdc_data_atlas-shard-00_job_job123.tar.gz"), w')
    /\ files w' (PathDiv (PathOf ".")
                   "ftdc_data_atlas-shard-00_job_job123.tar.gz")
       = Some [x1f; x8b; x08]
    /\ served w' = 5%nat
    /\ sleeps (trace w') = [3].
Proof.
  apply (get_ftdc_data_completes str_of_text (PathOf ".") 2 demo_service "g1"
           "shard-00" 10000000 None (fresh_world good_run)
           (json_response 200 (listing two_shards))
           (json_response 201 (PDict [("id", PStr "job123")]))
           (stream_response 200 [[x1f; x8b]; [x08]])
           (listing two_shards) two_shards
           {| alias := "atlas-shard-00-0"; kind := "REPLICA_PRIMARY";
              groupName := Some "atlas-shard-00" |}
           "atlas-shard-00" "job123" [("id", PStr "job123")] 1);
    try reflexivity.
  - discriminate.
  - intros [|k] Hk; [reflexivity | lia].
  - left; reflexivity.
  - lia.
Defined.

Lemma download_exits_zero_witness :
  exists res w',
    download str_of_text (PathOf ".") 2 "g1" "shard-00" "public" "private"
      10000000 None (fresh_world good_run)
    = Some (res, w')
    /\ exit_status res = 0.
Proof.
  destruct (download_exits_zero str_of_text (PathOf ".") 2 demo_service "g1"
              "shard-00" 10000000 None (fresh_world good_run)
              (json_response 200 (listing two_shards))
              (json_response 201 (PDict [("id", PStr "job123")]))
              (stream_response 200 [[x1f; x8b]; [x08]])
              (listing two_shards) two_shards
              {| alias := "atlas-shard-00-0"; kind := "REPLICA_PRIMARY";
                 groupName := Some "atlas-shard-00" |}
              "atlas-shard-00" "job123" [("id", PStr "job123")] 1)
    with (public := "public") (private := "private")
    as (w' & Hrun & _);
    try reflexivity.
  - discriminate.
  - intros [|k] Hk; [reflexivity | lia].
  - left; reflexivity.
  - lia.
  - eexists. exists w'. split; [exact Hrun | reflexivity].
Defined.

Lemma get_ftdc_data_resolver_error_witness :
  exists e w',
    get_ftdc_data str_of_text (PathOf ".") 2 demo_service "g1" "shard-00"
      10000000 None (fresh_world [Reply (json_response 200 PNone)])
    = Some (Raised e, w')
    /\ exn_cls e = AttributeError
    /\ served w' = 1%nat.
Proof.
  destruct (get_ftdc_data_resolver_error str_of_text (PathOf ".") 2
              demo_service "g1" "shard-00" 10000000 None
              (fresh_world [Reply (json_response 200 PNone)])
              (Exn AttributeError []) eq_refl)
    as (w' & Hrun & Hserved & _).
  exists (Exn AttributeError []), w'. now repeat split.
Defined.

Lemma get_ftdc_data_not_created_witness :
  exists e w',
    get_ftdc_data str_of_text (PathOf ".") 2 demo_service "g1" "shard-00"
      10000000 None (fresh_world refused_run)
    = Some (Raised e, w')
    /\ exn_cls e = JobCreationError
    /\ served w' = 2%nat.
Proof.
  destruct (get_ftdc_data_not_created str_of_text (PathOf ".") 2 demo_service
              "g1" "shard-00" 10000000 None (fresh_world refused_run)
              (json_response 200 (listing two_shards)) (listing two_shards)
              two_shards
              {| alias := "atlas-shard-00-0"; kind := "REPLICA_PRIMARY";
                 groupName := Some "atlas-shard-00" |}
              "atlas-shard-00")
    with (r2 := json_response 403 PNone)
    as (w' & Hrun & Hserved & _);
    try reflexivity.
  - discriminate.
  - cbn. lia.
  - eexists. exists w'. split; [exact Hrun|]. now split.
Defined.

Lemma download_missing_id_witness :
  exists res w',
    download str_of_text (PathOf ".") 2 "g1" "shard-00" "public" "private"
      10000000 None (fresh_world no_id_run)
    = Some (res, w')
    /\ exit_status res = 1
    /\ echoed res = [EText "Unexpected error: ";
                     EExn (Exn KeyError [FmtVal (PStr "id")])].
Proof.
  destruct (download_missing_id str_of_text (PathOf ".") 2 demo_service
              "g1" "shard-00" 10000000 None (fresh_world no_id_run)
              (json_response 200 (listing two_shards)) (listing two_shards)
              two_shards
              {| alias := "atlas-shard-00-0"; kind := "REPLICA_PRIMARY";
                 groupName := Some "atlas-shard-00" |}
              "atlas-shard-00")
    with (public := "public") (private := "private")
         (r2 := json_response 201 (PDict [])) (d2 := @nil (string * pyval))
    as (w' & Hrun & _);
    try reflexivity.
  - discriminate.
  - eexists. exists w'. split; [exact Hrun|]. now split.
Defined.

Lemma get_ftdc_data_job_failed_witness :
  exists e w',
    get_ftdc_data str_of_text (PathOf ".") 2 demo_service "g1" "shard-00"
      10000000 None (fresh_world expired_run)
    = Some (Raised e, w')
    /\ exn_cls e = JobStatusError
    /\ files w' = (fun _ => None).
Proof.
  destruct (get_ftdc_data_job_failed str_of_text (PathOf ".") 2 demo_service
              "g1" "shard-00" 10000000 None (fresh_world expired_run)
              (json_response 200 (listing two_shards)) (listing two_shards)
              two_shards
              {| alias := "atlas-shard-00-0"; kind := "REPLICA_PRIMARY";
                 groupName := Some "atlas-shard-00" |}
              "atlas-shard-00")
    with (r2 := json_response 201 (PDict [("id", PStr "job123")]))
         (d2 := [("id", PStr "job123")]) (j := "job123") (n := 1%nat)
    as (e & w' & evs & Hrun & Hcls & Hfiles & _);
    try reflexivity.
  - discriminate.
  - intros [|k] Hk; [reflexivity | lia].
  - right; reflexivity.
  - lia.
  - exists e, w'. now repeat split.
Defined.

Lemma download_list_failure_witness :
  exists res w',
    download str_of_text (PathOf ".") 2 "g1" "shard-00" "public" "private"
      10000000 None (fresh_world [Reply (json_response 401 PNone)])
    = Some (res, w')
    /\ exit_status res = 1
    /\ to_stderr res = true.
Proof.
  destruct (download_list_failure str_of_text (PathOf ".") 2 "g1" "shard-00"
              "public" "private" 10000000 None
              (fresh_world [Reply (json_response 401 PNone)])
              (json_response 401 PNone) eq_refl)
    as (w' & Hrun & _).
  - cbn. lia.
  - eexists. exists w'. split; [exact Hrun|]. now split.
Defined.

Lemma get_ftdc_data_error_classes_witness :
  In ReplicaSetNotFoundError
    [ReplicaSetNotFoundError; JobCreationError; JobStatusError; DownloadError].
Proof.
  exact (get_ftdc_data_error_classes str_of_text (PathOf ".") 2 demo_service
           "g1" "shard-00" 10000000 None
           (fresh_world [Reply (json_response 401 PNone)])
           (Exn ReplicaSetNotFoundError
              [Lit "Failed to get processes. Status: "; FmtInt 401;
               Lit ", Response: "; FmtStr ""])
           _ eq_refl eq_refl).
Defined.
